(** * mailmerge: a shallow embedding of [mailmerge/__main__.py]

    The program reads a message (subject line and body), a names file of
    [name,email] rows, renders the message once per row and either prints
    it ([--test]) or hands it to an SMTP server.

    Python [str] values are modelled by [string]; a [dict] with string keys
    by [gmap string string]; exceptions by the sum [exn + A]; the terminal
    and the SMTP server by an explicit world that is threaded through the
    run together with the trace of what the program did. *)

From Stdlib Require Import ZArith Ascii String List DecimalString PrimFloat.
From stdpp Require Import base option list gmap strings.

Local Open Scope string_scope.
Local Open Scope list_scope.

(** ** Exceptions *)

Record exn := mkExn { exn_class : string; exn_text : string }.

Definition ValueError (s : string) : exn := mkExn "ValueError" s.
Definition TypeError (s : string) : exn := mkExn "TypeError" s.

Abbreviation result A := (exn + A)%type.

Definition rbind {A B} (r : result A) (f : A -> result B) : result B :=
  match r with inl e => inl e | inr a => f a end.

Definition rmap {A B} (f : A -> B) (r : result A) : result B :=
  match r with inl e => inl e | inr a => inr (f a) end.

(** ** Python string operations used by [main] *)

Module Py.

Definition nl : ascii := "010"%char.
Definition NL : string := String nl "".
Definition DQ : string := String "034"%char "".

(** [s.split(sep, 1)] for a one-character separator: at most one split,
    at the first occurrence. *)
Fixpoint split1 (sep : ascii) (s : string) : list string :=
  match s with
  | "" => [""]
  | String c rest =>
      if Ascii.eqb c sep then ["" ; rest]
      else match split1 sep rest with
           | [a] => [String c a]
           | a :: more => String c a :: more
           | [] => []
           end
  end.

(** [a, b = xs]: unpacking into exactly two names. *)
Definition unpack2 {A} (xs : list A) : result (A * A) :=
  match xs with
  | [a; b] => inr (a, b)
  | _ =>
      if Nat.ltb (length xs) 2 then
        inl (ValueError
               ("not enough values to unpack (expected 2, got "
                  +:+ NilZero.string_of_uint (Nat.to_uint (length xs)) +:+ ")"))
      else inl (ValueError "too many values to unpack (expected 2)")
  end.

(** [sep.join(xs)]. *)
Fixpoint join (sep : string) (xs : list string) : string :=
  match xs with
  | [] => ""
  | [x] => x
  | x :: rest => x +:+ sep +:+ join sep rest
  end.

(** Arguments of the [%] operator. *)
Inductive value := VStr (s : string) | VInt (z : Z).

Definition str (v : value) : string :=
  match v with
  | VStr s => s
  | VInt z => NilZero.string_of_int (Z.to_int z)
  end.

(** [fmt % args] for the conversions the program uses ([%s], [%d]) and
    the literal [%%]. *)
Fixpoint format (fmt : string) (args : list value) : result string :=
  match fmt with
  | "" =>
      match args with
      | [] => inr ""
      | _ => inl (TypeError
                    "not all arguments converted during string formatting")
      end
  | String "%" "" => inl (ValueError "incomplete format")
  | String "%" (String c rest) =>
      if Ascii.eqb c "s" then
        match args with
        | a :: args' => rmap (fun r => str a +:+ r) (format rest args')
        | [] => inl (TypeError "not enough arguments for format string")
        end
      else if Ascii.eqb c "d" then
        match args with
        | VInt z :: args' =>
            rmap (fun r => str (VInt z) +:+ r) (format rest args')
        | VStr _ :: _ =>
            inl (TypeError "%d format: a real number is required, not str")
        | [] => inl (TypeError "not enough arguments for format string")
        end
      else if Ascii.eqb c "%" then
        rmap (String "%") (format rest args)
      else inl (ValueError "unsupported format character")
  | String c rest => rmap (String c) (format rest args)
  end.

(** [not x] for an optional string: [None] and [''] are falsy. *)
Definition falsy (x : option string) : bool :=
  match x with
  | None => true
  | Some "" => true
  | Some _ => false
  end.

End Py.

(** ** The message object ([email.message.Message]) *)

Record Message := mkMessage {
  headers : list (string * string);
  payload : option string
}.

Definition Message_new : Message := mkMessage [] None.

Definition add_header (name value : string) (m : Message) : Message :=
  mkMessage (headers m ++ [(name, value)]) (payload m).

Definition set_payload (p : string) (m : Message) : Message :=
  mkMessage (headers m) (Some p).

(** The module-level constant [html] (lines 47-53). *)
Definition html : string :=
  "<!doctype html>" +:+ Py.NL +:+
  "<html lang=" +:+ Py.DQ +:+ "en" +:+ Py.DQ +:+ ">" +:+ Py.NL +:+
  "<body>" +:+ Py.NL +:+
  "%s" +:+ Py.NL +:+
  "</body>" +:+ Py.NL +:+
  "</html>" +:+ Py.NL.

(** ** Library interface

    The third-party functions [main] calls.  Their code is not part of the
    program, so the run is defined over any implementation of them; the
    ones that can raise return a [result]. *)

Record Library := {
  Template : Type;
  (** [email.utils.parseaddr], [email.utils.formataddr] *)
  parseaddr : string -> string * string;
  formataddr : string * string -> result string;
  (** [markdown.markdown] *)
  markdown : string -> string;
  (** [jinja2.Environment().from_string] and [Template.render] with keyword arguments *)
  from_string : string -> result Template;
  render : Template -> gmap string string -> result string;
  (** [list(csv.reader(f))] over the lines of the file [f] *)
  reader : list string -> result (list (list string));
  (** [Message.as_string] *)
  as_string : Message -> result string
}.

(** ** Command line ([parser], lines 55-124) *)

Record Args := {
  args_names : list string;          (* lines of the names file *)
  args_message : string;             (* what [args.message.read()] returns *)
  args_html : bool;
  args_sender : string;
  args_interval : float;
  args_hostname : string;
  args_port : Z;
  args_tls : bool;
  args_username : option string;
  args_password : option string;
  args_test : bool
}.

Definition set_username (u : option string) (a : Args) : Args :=
  {| args_names := args_names a; args_message := args_message a;
     args_html := args_html a; args_sender := args_sender a;
     args_interval := args_interval a; args_hostname := args_hostname a;
     args_port := args_port a; args_tls := args_tls a;
     args_username := u; args_password := args_password a;
     args_test := args_test a |}.

Definition set_password (p : option string) (a : Args) : Args :=
  {| args_names := args_names a; args_message := args_message a;
     args_html := args_html a; args_sender := args_sender a;
     args_interval := args_interval a; args_hostname := args_hostname a;
     args_port := args_port a; args_tls := args_tls a;
     args_username := args_username a; args_password := p;
     args_test := args_test a |}.

(** ** The world: terminal input and the SMTP server

    Every operation answers from the current world state and moves to the
    next one.  An SMTP operation either succeeds or raises (an [Exception]
    subclass: [OSError], [SMTPException], ...). *)

Record World := {
  W : Type;
  w_input : string -> W -> W * result string;
  w_getpass : string -> W -> W * result string;
  w_connect : string -> Z -> W -> W * result unit;
  w_starttls : nat -> W -> W * result unit;
  w_login : nat -> option string -> option string -> W -> W * result unit;
  w_sendmail : nat -> string -> string -> string -> W -> W * result unit;
  (** [time.sleep]: raises for a negative or NaN duration *)
  w_sleep : float -> W -> W * result unit
}.

(** The [print] calls of [main], by source line. *)
Inductive site := L130 | L156 | L162 | L174 | L175 | L186 | L189.

#[global] Instance site_eq_dec : EqDecision site.
Proof. solve_decision. Defined.

(** What a run does, in order.  SMTP events carry the number of the
    [SMTP] object they act on: objects are numbered in creation order. *)
Inductive event :=
| EPrint (at_line : site) (text : string)
| EInput (prompt : string)
| EGetpass (prompt : string)
| EConnect (sid : nat) (host : string) (port : Z)
| EStartTLS (sid : nat)
| ELogin (sid : nat) (user password : option string)
| ESendMail (sid : nat) (from_addr to_addr msg : string)
| ESleep (seconds : float).

Section Run.

Context (L : Library) (Wd : World).

Record st := mkSt { world : W Wd; sessions : nat }.

(** Computations: from a state to the events emitted, the next state and
    a value or a raised exception. *)
Definition M (A : Type) : Type := st -> list event * st * result A.

Definition ret {A} (a : A) : M A := fun s => ([], s, inr a).

Definition raise {A} (e : exn) : M A := fun s => ([], s, inl e).

Definition lift {A} (r : result A) : M A := fun s => ([], s, r).

Definition bind {A B} (m : M A) (f : A -> M B) : M B :=
  fun s =>
    match m s with
    | (t1, s1, inl e) => (t1, s1, inl e)
    | (t1, s1, inr a) =>
        match f a s1 with
        | (t2, s2, r) => (t1 ++ t2, s2, r)
        end
    end.

(** [try: m  except Exception as e: h e] *)
Definition try_except {A} (m : M A) (h : exn -> M A) : M A :=
  fun s =>
    match m s with
    | (t1, s1, inl e) =>
        match h e s1 with
        | (t2, s2, r) => (t1 ++ t2, s2, r)
        end
    | (t1, s1, inr a) => (t1, s1, inr a)
    end.

Notation "'let!' x ':=' m 'in' k" := (bind m (fun x => k))
  (at level 10, x name, m at level 100, k at level 200, only parsing).
Notation "'let!' ' pat ':=' m 'in' k" :=
  (bind m (fun x => match x with pat => k end))
  (at level 10, pat pattern, m at level 100, k at level 200, only parsing).
Notation "m ;;; k" := (bind m (fun _ => k))
  (at level 100, k at level 200, only parsing, right associativity).

Definition emit (ev : event) : M unit := fun s => ([ev], s, inr tt).

(** [print(text, end=e)] and [print(text)]. *)
Definition print_end (l : site) (text e : string) : M unit :=
  emit (EPrint l (text +:+ e)).
Definition print (l : site) (text : string) : M unit :=
  print_end l text Py.NL.

Definition input (prompt : string) : M string :=
  fun s =>
    match w_input Wd prompt (world s) with
    | (w, r) => ([EInput prompt], mkSt w (sessions s), r)
    end.

Definition getpass (prompt : string) : M string :=
  fun s =>
    match w_getpass Wd prompt (world s) with
    | (w, r) => ([EGetpass prompt], mkSt w (sessions s), r)
    end.

(** [SMTP(host=..., port=...)]: a new object, connected on creation. *)
Definition SMTP (host : string) (port : Z) : M nat :=
  fun s =>
    let sid := sessions s in
    match w_connect Wd host port (world s) with
    | (w, r) =>
        ([EConnect sid host port], mkSt w (S sid), rmap (fun _ => sid) r)
    end.

Definition starttls (server : nat) : M unit :=
  fun s =>
    match w_starttls Wd server (world s) with
    | (w, r) => ([EStartTLS server], mkSt w (sessions s), r)
    end.

Definition login (server : nat) (u p : option string) : M unit :=
  fun s =>
    match w_login Wd server u p (world s) with
    | (w, r) => ([ELogin server u p], mkSt w (sessions s), r)
    end.

Definition sendmail (server : nat) (from_addr to_addr msg : string)
  : M unit :=
  fun s =>
    match w_sendmail Wd server from_addr to_addr msg (world s) with
    | (w, r) =>
        ([ESendMail server from_addr to_addr msg], mkSt w (sessions s), r)
    end.

Definition sleep (seconds : float) : M unit :=
  fun s =>
    match w_sleep Wd seconds (world s) with
    | (w, r) => ([ESleep seconds], mkSt w (sessions s), r)
    end.

(** Lines 129-134. *)
Definition prompt_credentials (args : Args) : M Args :=
  if args_tls args then
    print L130 "TLS enabled." ;;;
    let! args :=
      (if Py.falsy (args_username args)
       then let! u := input "Username: " in
            ret (set_username (Some u) args)
       else ret args) in
    if Py.falsy (args_password args)
    then let! p := getpass "Password: " in
         ret (set_password (Some p) args)
    else ret args
  else ret args.

(** Lines 165-171: the message object handed to [as_string]. *)
Definition build_message (sender recipient subject body : string)
  : result Message :=
  let message := Message_new in
  let message := add_header "From" sender message in
  let message := add_header "To" recipient message in
  let message := add_header "Subject" subject message in
  let message := add_header "MIME-Version" "1.0" message in
  let message :=
    add_header "Content-Type"
      ("text/html; charset=" +:+ Py.DQ +:+ "utf-8" +:+ Py.DQ) message in
  rbind (Py.format html [Py.VStr body])
    (fun p => inr (set_payload p message)).

(** Lines 178-187: the body of the [try] block. *)
Definition transmit (args : Args) (sender_email recipient message : string)
  : M unit :=
  let! server := SMTP (args_hostname args) (args_port args) in
  (if args_tls args then
     starttls server ;;;
     login server (args_username args) (args_password args)
   else ret tt) ;;;
  sendmail server sender_email recipient message ;;;
  print L186 "OK" ;;;
  sleep (args_interval args).

(** Lines 177-189: the [try] block with its handler. *)
Definition deliver (args : Args) (sender_email recipient message : string)
  : M unit :=
  try_except (transmit args sender_email recipient message)
    (fun e => print L189 (exn_text e)).

Section Loop.

Context (args : Args) (sender_email : string)
        (raw_subject raw_body : Template L) (total : nat).

(** Lines 158-189: what the loop does with a two-field row. *)
Definition process (index : nat) (name email : string)
    (kwargs : gmap string string) : M (gmap string string) :=
  let kwargs := <["name" := name]> kwargs in
  let kwargs := <["email" := email]> kwargs in
  let! recipient := lift (formataddr L (name, email)) in
  let kwargs := <["recipient" := recipient]> kwargs in
  let! progress :=
    lift (Py.format "%d / %d: %s... "
            [Py.VInt (Z.of_nat (index + 1));
             Py.VInt (Z.of_nat total);
             Py.VStr recipient]) in
  print_end L162 progress "" ;;;
  let! subject := lift (render L raw_subject kwargs) in
  let! body := lift (render L raw_body kwargs) in
  let! message :=
    lift (build_message (args_sender args) recipient subject body) in
  let! message := lift (as_string L message) in
  (if args_test args then
     print L174 "Testing" ;;;
     print L175 message
   else deliver args sender_email recipient message) ;;;
  ret kwargs.

(** Lines 151-189: one iteration.  [kwargs] is the dictionary the loop
    keeps writing to; the iteration returns it as it leaves it. *)
Definition iteration (index : nat) (line : list string)
    (kwargs : gmap string string) : M (gmap string string) :=
  match line with
  | [] => ret kwargs
  | [name; email] => process index name email kwargs
  | _ =>
      let! text :=
        lift (Py.format ("Improperly formatted user: " +:+ Py.DQ
                           +:+ "%s" +:+ Py.DQ +:+ ".")
                [Py.VStr (Py.join "," line)]) in
      print L156 text ;;;
      ret kwargs
  end.

(** [for index, line in enumerate(addresses)], from [index] on. *)
Fixpoint loop (index : nat) (addresses : list (list string))
    (kwargs : gmap string string) : M unit :=
  match addresses with
  | [] => ret tt
  | line :: rest =>
      let! kwargs := iteration index line kwargs in
      loop (S index) rest kwargs
  end.

End Loop.

(** Lines 135-141: the sender entries of [kwargs]. *)
Definition sender_kwargs (args : Args) : result (gmap string string) :=
  let '(sender_name, sender_email) := parseaddr L (args_sender args) in
  let kwargs : gmap string string := ∅ in
  let kwargs := <["sender_name" := sender_name]> kwargs in
  let kwargs := <["sender_email" := sender_email]> kwargs in
  rbind (formataddr L (sender_name, sender_email))
    (fun s => inr (<["sender" := s]> kwargs)).

(** Lines 142-147: the two compiled templates. *)
Definition compile_templates (args : Args)
  : result (Template L * Template L) :=
  rbind (Py.unpack2 (Py.split1 Py.nl (args_message args)))
    (fun '(raw_subject, raw_body) =>
       rbind (from_string L raw_subject)
         (fun raw_subject =>
            let raw_body :=
              if args_html args then raw_body
              else markdown L raw_body in
            rbind (from_string L raw_body)
              (fun raw_body => inr (raw_subject, raw_body)))).

(** [main] (lines 127-189). *)
Definition main (args : Args) : M unit :=
  let! args := prompt_credentials args in
  let! kwargs := lift (sender_kwargs args) in
  let sender_email := snd (parseaddr L (args_sender args)) in
  let! '(raw_subject, raw_body) := lift (compile_templates args) in
  let! addresses := lift (reader L (args_names args)) in
  let total := length addresses in
  loop args sender_email raw_subject raw_body total 0 addresses kwargs.

(** A run of the program: [main] from a world in which no [SMTP] object
    exists yet.  It yields the trace, the final state and whether [main]
    returned or raised. *)
Definition run (args : Args) (w : W Wd) : list event * st * result unit :=
  main args (mkSt w 0).

End Run.

Arguments mkSt {Wd} _ _.
Arguments world {Wd} _.
Arguments sessions {Wd} _.

(** ** The CSV reader

    [csv.reader(f)] with the default [excel] dialect: delimiter [,], the
    double quote as quote character, doubled inside quoted fields, no escape
    character, not strict.  The reader is the character automaton of the
    standard library; the states that need an escape character cannot be
    reached and are left out. *)

Module Csv.

Inductive pstate :=
| START_RECORD | START_FIELD | IN_FIELD
| IN_QUOTED_FIELD | QUOTE_IN_QUOTED_FIELD | EAT_CRNL.

Record parser := mkParser {
  state : pstate;
  fields : list string;
  field : string
}.

(** A character of the line, or the end-of-line mark fed after it. *)
Inductive input := Char (c : ascii) | EOL.

Definition delimiter : ascii := ",".
Definition quotechar : ascii := "034".
Definition field_limit : N := 131072%N.

Definition Error (s : string) : exn := mkExn "_csv.Error" s.

Definition parse_reset : parser := mkParser START_RECORD [] "".

Definition parse_save_field (st : pstate) (p : parser) : parser :=
  mkParser st (fields p ++ [field p]) "".

Definition parse_add_char (st : pstate) (c : ascii) (p : parser)
  : result parser :=
  if N.leb field_limit (N.of_nat (String.length (field p))) then
    inl (Error "field larger than field limit (131072)")
  else inr (mkParser st (fields p) (field p +:+ String c "")).

Definition is_newline (c : ascii) : bool :=
  Ascii.eqb c "010" || Ascii.eqb c "013".

Definition set_state (st : pstate) (p : parser) : parser :=
  mkParser st (fields p) (field p).

Definition start_field (i : input) (p : parser) : result parser :=
  match i with
  | EOL => inr (parse_save_field START_RECORD p)
  | Char c =>
      if is_newline c then inr (parse_save_field EAT_CRNL p)
      else if Ascii.eqb c quotechar then inr (set_state IN_QUOTED_FIELD p)
      else if Ascii.eqb c delimiter then
        inr (parse_save_field START_FIELD p)
      else parse_add_char IN_FIELD c p
  end.

Definition parse_process_char (i : input) (p : parser) : result parser :=
  match state p with
  | START_RECORD =>
      match i with
      | EOL => inr p
      | Char c =>
          if is_newline c then inr (set_state EAT_CRNL p)
          else start_field i p
      end
  | START_FIELD => start_field i p
  | IN_FIELD =>
      match i with
      | EOL => inr (parse_save_field START_RECORD p)
      | Char c =>
          if is_newline c then inr (parse_save_field EAT_CRNL p)
          else if Ascii.eqb c delimiter then
            inr (parse_save_field START_FIELD p)
          else parse_add_char IN_FIELD c p
      end
  | IN_QUOTED_FIELD =>
      match i with
      | EOL => inr p
      | Char c =>
          if Ascii.eqb c quotechar then
            inr (set_state QUOTE_IN_QUOTED_FIELD p)
          else parse_add_char IN_QUOTED_FIELD c p
      end
  | QUOTE_IN_QUOTED_FIELD =>
      match i with
      | EOL => inr (parse_save_field START_RECORD p)
      | Char c =>
          if Ascii.eqb c quotechar then parse_add_char IN_QUOTED_FIELD c p
          else if Ascii.eqb c delimiter then
            inr (parse_save_field START_FIELD p)
          else if is_newline c then inr (parse_save_field EAT_CRNL p)
          else parse_add_char IN_FIELD c p
      end
  | EAT_CRNL =>
      match i with
      | EOL => inr (set_state START_RECORD p)
      | Char c =>
          if is_newline c then inr p
          else inl (Error "new-line character seen in unquoted field")
      end
  end.

(** The characters of one line, then the end-of-line mark. *)
Fixpoint process_line (line : string) (p : parser) : result parser :=
  match line with
  | "" => parse_process_char EOL p
  | String c rest =>
      rbind (parse_process_char (Char c) p) (process_line rest)
  end.

(** [list(reader(lines))]: a record ends when the automaton is back in
    [START_RECORD]; input that ends inside a quoted field closes the
    record there. *)
Fixpoint records (p : parser) (lines : list string)
  : result (list (list string)) :=
  match lines with
  | [] =>
      match state p, field p with
      | IN_QUOTED_FIELD, _ | _, String _ _ =>
          inr [fields (parse_save_field START_RECORD p)]
      | _, _ => inr []
      end
  | line :: rest =>
      rbind (process_line line p)
        (fun p' =>
           match state p' with
           | START_RECORD =>
               rmap (cons (fields p')) (records parse_reset rest)
           | _ => records p' rest
           end)
  end.

Definition reader (lines : list string) : result (list (list string)) :=
  records parse_reset lines.

End Csv.

(** ** Reference instances of the library and of the world

    Small executable stand-ins for the third-party functions, exact on the
    plain ASCII inputs the examples below use, and a scripted SMTP server.
    The general theorems do not depend on them. *)

Module Ref.

Definition is_ascii (s : string) : bool :=
  forallb (fun c => Nat.ltb (nat_of_ascii c) 128) (list_ascii_of_string s).

Definition UnicodeEncodeError : exn :=
  mkExn "UnicodeEncodeError" "'ascii' codec can't encode characters".

(** The characters of [specialsre] and [escapesre] in [email.utils]. *)
Definition specials : list ascii :=
  ["]"; "["; "\"; "("; ")"; "<"; ">"; "@"; ","; ":"; ";"; "034"; "."]%char.
Definition escapes : list ascii := ["\"; "034"]%char.

Definition is_in (cs : list ascii) (c : ascii) : bool :=
  existsb (Ascii.eqb c) cs.

Fixpoint escape (s : string) : string :=
  match s with
  | "" => ""
  | String c rest =>
      if is_in escapes c then String "\" (String c (escape rest))
      else String c (escape rest)
  end.

(** [formataddr((name, address))] on ASCII input: the address alone when
    the name is empty, else the name (quoted when it has a special
    character, with backslashes and quotes escaped) and the address in
    angle brackets.  A non-ASCII address raises, as in the library; a
    non-ASCII name, which the library would encode, is outside what this
    stand-in covers and raises too. *)
Definition formataddr (pair : string * string) : result string :=
  let '(name, address) := pair in
  if negb (is_ascii address) then inl UnicodeEncodeError
  else
    match name with
    | "" => inr address
    | _ =>
        if negb (is_ascii name) then inl UnicodeEncodeError
        else
          let quotes :=
            if existsb (is_in specials) (list_ascii_of_string name)
            then Py.DQ else "" in
          inr (quotes +:+ escape name +:+ quotes +:+ " <" +:+ address
                 +:+ ">")
    end.

(** [parseaddr] on the two everyday shapes, [phrase <addr>] and a bare
    address.  For any other string this stand-in does what the spec says
    of a failed parse: an empty name and the whole string as address. *)
Fixpoint before_angle (s : string) : option (string * string) :=
  match s with
  | "" => None
  | String c rest =>
      if Ascii.eqb c "<" then Some ("", rest)
      else option_map (fun '(a, b) => (String c a, b)) (before_angle rest)
  end.

Fixpoint strip_right (s : string) : string :=
  match s with
  | "" => ""
  | String c rest =>
      match strip_right rest with
      | "" => if Ascii.eqb c " " then "" else String c ""
      | r => String c r
      end
  end.

Fixpoint until_close (s : string) : option string :=
  match s with
  | "" => None
  | String c rest =>
      if Ascii.eqb c ">" then
        match rest with "" => Some "" | _ => None end
      else option_map (String c) (until_close rest)
  end.

Definition parseaddr (s : string) : string * string :=
  match before_angle s with
  | Some (phrase, rest) =>
      match until_close rest with
      | Some addr => (strip_right phrase, addr)
      | None => ("", s)
      end
  | None => ("", s)
  end.

(** [markdown] on one line of plain text: a single paragraph. *)
Definition markdown (s : string) : string := "<p>" +:+ s +:+ "</p>".

(** [as_string] for short ASCII headers: one [Name: value] line each, an
    empty line, the payload. *)
Definition as_string (m : Message) : result string :=
  inr (fold_right
         (fun '(k, v) acc => k +:+ ": " +:+ v +:+ Py.NL +:+ acc)
         (Py.NL +:+ default "" (payload m)) (headers m)).

End Ref.

(** ** Templates with placeholders

    A stand-in for the template engine (jinja2, a third-party library)
    on the templates the program's docstring describes: literal text with
    placeholders.  It knows two kinds of placeholder, a variable
    [{{ name }}] and an attribute of a variable [{{ name.attr }}], and
    follows the engine's default treatment of undefined variables, which
    [Environment()] at line 142 selects: an undefined variable prints as
    the empty string, but looking up an attribute of an undefined variable
    raises [UndefinedError].  Statements, comments, filters, literals,
    the engine's global names and every other expression are outside the
    stand-in, which refuses them. *)

Module Tpl.

Inductive segment :=
| Lit (s : string)
| Var (v : string)
| Attr (v a : string).

Definition TemplateSyntaxError (s : string) : exn :=
  mkExn "TemplateSyntaxError" s.

Definition UndefinedError (v : string) : exn :=
  mkExn "UndefinedError" ("'" +:+ v +:+ "' is undefined").

(** What the stand-in answers for syntax it does not cover. *)
Definition unsupported : exn :=
  mkExn "NotImplementedError" "template syntax outside the stand-in".

(** A variable prints as its value, and as the empty string when the
    context lacks it.  An attribute of an undefined variable raises; an
    attribute of a defined variable, here always a string, is covered for
    the attributes a string does not have, which are undefined and print
    as the empty string. *)
Definition render_segment (kwargs : gmap string string) (g : segment)
  : result string :=
  match g with
  | Lit s => inr s
  | Var v => inr (default "" (kwargs !! v))
  | Attr v a =>
      match kwargs !! v with
      | None => inl (UndefinedError v)
      | Some _ => inr ""
      end
  end.

(** Rendering goes through the segments in order and stops at the first
    one that raises. *)
Fixpoint render (t : list segment) (kwargs : gmap string string)
  : result string :=
  match t with
  | [] => inr ""
  | g :: rest =>
      rbind (render_segment kwargs g)
        (fun s => rmap (String.append s) (render rest kwargs))
  end.

(** Names: ASCII identifiers that are neither a literal, an operator nor
    one of the engine's global names. *)
Definition is_letter (c : ascii) : bool :=
  let n := nat_of_ascii c in
  (Nat.leb 65 n && Nat.leb n 90) || (Nat.leb 97 n && Nat.leb n 122)
  || Nat.eqb n 95.

Definition is_digit (c : ascii) : bool :=
  let n := nat_of_ascii c in Nat.leb 48 n && Nat.leb n 57.

Definition is_identifier (s : string) : bool :=
  match s with
  | "" => false
  | String c rest =>
      is_letter c
      && forallb (fun c => is_letter c || is_digit c)
           (list_ascii_of_string rest)
  end.

Definition reserved : list string :=
  ["true"; "false"; "none"; "True"; "False"; "None";
   "and"; "or"; "not"; "in"; "is"; "if"; "else";
   "range"; "dict"; "lipsum"; "cycler"; "joiner"; "namespace"; "self"].

Definition is_name (v : string) : bool :=
  is_identifier v && negb (existsb (String.eqb v) reserved).


Fixpoint strip_left (s : string) : string :=
  match s with
  | String " " rest => strip_left rest
  | _ => s
  end.

Fixpoint strip_right (s : string) : string :=
  match s with
  | "" => ""
  | String c rest =>
      match strip_right rest with
      | "" => if Ascii.eqb c " " then "" else String c ""
      | r => String c r
      end
  end.

(** The text before the first dot, and the text after it if there is
    one. *)
Fixpoint split_dot (s : string) : string * option string :=
  match s with
  | "" => ("", None)
  | String c rest =>
      if Ascii.eqb c "." then ("", Some rest)
      else let '(a, b) := split_dot rest in (String c a, b)
  end.

(** The expression between the braces of a placeholder. *)
Definition classify (expr : string) : result segment :=
  match split_dot (strip_right (strip_left expr)) with
  | (v, None) => if is_name v then inr (Var v) else inl unsupported
  | (v, Some a) =>
      if is_name v && is_identifier a then inr (Attr v a)
      else inl unsupported
  end.

Inductive mode := Text (lit : string) | Expr (e : string).

Definition flush (lit : string) : list segment :=
  match lit with "" => [] | _ => [Lit lit] end.

Fixpoint parse (m : mode) (s : string) : result (list segment) :=
  match m, s with
  | Text lit, "" => inr (flush lit)
  | Text lit, String "{" (String "{" rest) =>
      rmap (app (flush lit)) (parse (Expr "") rest)
  | Text lit, String "{" (String "%" rest) => inl unsupported
  | Text lit, String "{" (String "#" rest) => inl unsupported
  | Text lit, String c rest => parse (Text (lit +:+ String c "")) rest
  | Expr e, "" => inl (TemplateSyntaxError "unexpected end of template")
  | Expr e, String "}" (String "}" rest) =>
      rbind (classify e) (fun g => rmap (cons g) (parse (Text "") rest))
  | Expr e, String c rest => parse (Expr (e +:+ String c "")) rest
  end.

(** The engine drops a single newline at the end of a template. *)
Fixpoint chomp (s : string) : string :=
  match s with
  | "" => ""
  | String c "" => if Ascii.eqb c Py.nl then "" else s
  | String c rest => String c (chomp rest)
  end.

Definition from_string (s : string) : result (list segment) :=
  parse (Text "") (chomp s).

End Tpl.


Definition pylib : Library :=
  {| Template := list Tpl.segment;
     parseaddr := Ref.parseaddr;
     formataddr := Ref.formataddr;
     markdown := Ref.markdown;
     from_string := Tpl.from_string;
     render := Tpl.render;
     reader := Csv.reader;
     as_string := Ref.as_string |}.

(** A server that answers its successive SMTP operations from a script and
    accepts everything once the script is used up; the terminal answers
    every prompt with the same text. *)
Definition next_answer (w : list (result unit))
  : list (result unit) * result unit :=
  match w with
  | [] => ([], inr tt)
  | r :: w' => (w', r)
  end.

Definition scripted : World :=
  {| W := list (result unit);
     w_input := fun _ w => (w, inr "user");
     w_getpass := fun _ w => (w, inr "secret");
     w_connect := fun _ _ w => next_answer w;
     w_starttls := fun _ w => next_answer w;
     w_login := fun _ _ _ w => next_answer w;
     w_sendmail := fun _ _ _ _ w => next_answer w;
     w_sleep := fun seconds w =>
       if PrimFloat.ltb seconds 0 then
         (w, inl (ValueError "sleep length must be non-negative"))
       else if PrimFloat.eqb seconds seconds then (w, inr tt)
       else (w, inl (ValueError "Invalid value NaN (not a number)")) |}.

Definition refused (s : string) : result unit :=
  inl (mkExn "OSError" s).

(** The command line [mailmerge names message] with every option at its
    default but the sender. *)
Definition default_args (names : list string) (message : string) : Args :=
  {| args_names := names; args_message := message;
     args_html := false; args_sender := "me <me@localhost>";
     args_interval := 0.25%float; args_hostname := "localhost";
     args_port := 25; args_tls := false;
     args_username := None; args_password := None;
     args_test := false |}.

(** ** Reading a run

    Pure counterparts of what an iteration computes, and projections of a
    trace, used to state what a run did. *)

Definition has_newline (s : string) : bool :=
  existsb (Ascii.eqb Py.nl) (list_ascii_of_string s).

Definition two_fields (line : list string) : bool :=
  match line with [_; _] => true | _ => false end.

(** How many rows of the names file are recipient records. *)
Definition count_records (rows : list (list string)) : nat :=
  length (List.filter two_fields rows).

(** The text line 156 hands to [print] for a row. *)
Definition diagnostic (line : list string) : string :=
  "Improperly formatted user: " +:+ Py.DQ +:+ Py.join "," line +:+ Py.DQ
    +:+ ".".

(** [html % body]. *)
Definition html_page (body : string) : string :=
  "<!doctype html>" +:+ Py.NL +:+
  "<html lang=" +:+ Py.DQ +:+ "en" +:+ Py.DQ +:+ ">" +:+ Py.NL +:+
  "<body>" +:+ Py.NL +:+
  body +:+ Py.NL +:+
  "</body>" +:+ Py.NL +:+
  "</html>" +:+ Py.NL.

(** The headers lines 166-170 add, in order. *)
Definition message_headers (sender recipient subject : string)
  : list (string * string) :=
  [("From", sender); ("To", recipient); ("Subject", subject);
   ("MIME-Version", "1.0");
   ("Content-Type", "text/html; charset=" +:+ Py.DQ +:+ "utf-8" +:+ Py.DQ)].

(** The text line 162 prints. *)
Definition progress_line (index total : nat) (recipient : string) : string :=
  Py.str (Py.VInt (Z.of_nat (index + 1))) +:+ " / " +:+
  Py.str (Py.VInt (Z.of_nat total)) +:+ ": " +:+ recipient +:+ "... ".

(** [kwargs] once lines 158-161 have run for a recipient. *)
Definition bind_recipient (name email recipient : string)
    (kwargs : gmap string string) : gmap string string :=
  <["recipient" := recipient]>
    (<["email" := email]> (<["name" := name]> kwargs)).

(** The six variables the module docstring promises to templates. *)
Definition context_keys : gset string :=
  {["name"; "email"; "recipient"; "sender_name"; "sender_email"; "sender"]}.

Definition is_smtp (ev : event) : bool :=
  match ev with
  | EConnect _ _ _ | EStartTLS _ | ELogin _ _ _ | ESendMail _ _ _ _ => true
  | _ => false
  end.

(** The events of lines 129-134: the banner and the two prompts. *)
Definition is_prelude (ev : event) : bool :=
  match ev with
  | EPrint L130 _ | EInput _ | EGetpass _ => true
  | _ => false
  end.

(** The [SMTP] objects created, and the objects [sendmail] was called on. *)
Definition connects (tr : list event) : list nat :=
  omap (fun ev => match ev with EConnect sid _ _ => Some sid | _ => None end)
    tr.

Definition sends (tr : list event) : list nat :=
  omap (fun ev => match ev with ESendMail sid _ _ _ => Some sid | _ => None end)
    tr.

(** What was printed from a given line of the program. *)
Definition printed (l : site) (tr : list event) : list string :=
  omap (fun ev =>
          match ev with
          | EPrint l' text =>
              if decide (l = l') then Some text else None
          | _ => None
          end) tr.

Section Outgoing.

Context (L : Library) (args : Args)
        (raw_subject raw_body : Template L) (total : nat).

(** The recipient string, the progress text and the serialized message
    of a two-field row: the library calls of lines 160-172, in order. *)
Definition outgoing (index : nat) (name email : string)
    (kwargs : gmap string string) : result (string * string * string) :=
  rbind (formataddr L (name, email)) (fun recipient =>
  let kwargs := bind_recipient name email recipient kwargs in
  rbind (render L raw_subject kwargs) (fun subject =>
  rbind (render L raw_body kwargs) (fun body =>
  rbind (build_message (args_sender args) recipient subject body)
    (fun message =>
  rbind (as_string L message) (fun message =>
  inr (recipient, progress_line index total recipient, message)))))).

(** [kwargs] after a row, when the row did not raise. *)
Definition kwargs_after_row (kwargs : gmap string string)
    (line : list string) : gmap string string :=
  match line with
  | [name; email] =>
      match formataddr L (name, email) with
      | inr recipient => bind_recipient name email recipient kwargs
      | inl _ => kwargs
      end
  | _ => kwargs
  end.

Definition kwargs_after (rows : list (list string))
    (kwargs : gmap string string) : gmap string string :=
  fold_left kwargs_after_row rows kwargs.

(** The serialized message of a row, if it is a two-field row. *)
Definition row_message (index : nat) (line : list string)
    (kwargs : gmap string string) : list string :=
  match line with
  | [name; email] =>
      match outgoing index name email kwargs with
      | inr (_, _, message) => [message]
      | inl _ => []
      end
  | _ => []
  end.

(** The serialized messages of the two-field rows, in row order. *)
Fixpoint messages (index : nat) (rows : list (list string))
    (kwargs : gmap string string) : list string :=
  match rows with
  | [] => []
  | line :: rest =>
      row_message index line kwargs
        ++ messages (S index) rest (kwargs_after_row kwargs line)
  end.

End Outgoing.

Section HandOver.

Context (Wd : World) (args : Args) (sender_email : string).

(** Lines 173-189: what the loop does with a serialized message, the
    dry-run printout or the delivery. *)
Definition hand_over (recipient message : string) : M Wd unit :=
  if args_test args then
    bind Wd (print Wd L174 "Testing") (fun _ => print Wd L175 message)
  else deliver Wd args sender_email recipient message.

(** The events of a [try] block that ended with outcome [r]. *)
Definition handled (t : list event) (r : result unit) : list event :=
  match r with
  | inl e => t ++ [EPrint L189 (exn_text e +:+ Py.NL)]
  | inr _ => t
  end.

End HandOver.

(** Two command lines that differ at most in the credentials. *)
Definition same_options (a b : Args) : Prop :=
  args_names a = args_names b /\ args_message a = args_message b /\
  args_html a = args_html b /\ args_sender a = args_sender b /\
  args_interval a = args_interval b /\ args_hostname a = args_hostname b /\
  args_port a = args_port b /\ args_tls a = args_tls b /\
  args_test a = args_test b.

Definition set_names (names : list string) (a : Args) : Args :=
  {| args_names := names; args_message := args_message a;
     args_html := args_html a; args_sender := args_sender a;
     args_interval := args_interval a; args_hostname := args_hostname a;
     args_port := args_port a; args_tls := args_tls a;
     args_username := args_username a; args_password := args_password a;
     args_test := args_test a |}.

Definition set_message (html_flag : bool) (message : string) (a : Args)
  : Args :=
  {| args_names := args_names a; args_message := message;
     args_html := html_flag; args_sender := args_sender a;
     args_interval := args_interval a; args_hostname := args_hostname a;
     args_port := args_port a; args_tls := args_tls a;
     args_username := args_username a; args_password := args_password a;
     args_test := args_test a |}.

(** ** The spec's wording, for comparison with the program *)

Module Spec.

(** "a fixed minimal HTML document template" as the spec spells it. *)
Definition html_page (body : string) : string :=
  "<!doctype html><html><body>" +:+ body +:+ "</body></html>".


(** "one session serves all recipients": a single [SMTP] object is
    created and every [sendmail] goes through it. *)
Definition single_session (tr : list event) : Prop :=
  exists sid, connects tr = [sid] /\ Forall (eq sid) (sends tr).

(** "Connection/auth failure is fatal to the entire run": a run in which
    creating an [SMTP] object failed ends with that exception. *)
Definition connect_failure_is_fatal (e : exn) (r : result unit) : Prop :=
  r = inl e.

(** "exactly total dry-run message printouts (where total is the
    recipient count), one per recipient": the run printed as many
    messages as the names file has recipients. *)
Definition one_printout_per_recipient
    (rows : list (list string)) (tr : list event) : Prop :=
  length (printed L175 tr) = count_records rows.


End Spec.

(** ** Example inputs *)

Module Ex.

Definition alice : string := "Alice,alice@example.com" +:+ Py.NL.
Definition bob : string := "Bob,bob@example.com" +:+ Py.NL.
Definition carol : string := "Carol" +:+ Py.NL.

Definition hello : string :=
  "Hello {{ name }}!" +:+ Py.NL +:+ "Welcome, {{ name }}.".

Definition with_test (a : Args) : Args :=
  {| args_names := args_names a; args_message := args_message a;
     args_html := args_html a; args_sender := args_sender a;
     args_interval := args_interval a; args_hostname := args_hostname a;
     args_port := args_port a; args_tls := args_tls a;
     args_username := args_username a; args_password := args_password a;
     args_test := true |}.

Definition with_sender (sender : string) (a : Args) : Args :=
  {| args_names := args_names a; args_message := args_message a;
     args_html := args_html a; args_sender := sender;
     args_interval := args_interval a; args_hostname := args_hostname a;
     args_port := args_port a; args_tls := args_tls a;
     args_username := args_username a; args_password := args_password a;
     args_test := args_test a |}.

(** [mailmerge names message] with two recipients, sent live. *)
Definition live_two : Args := default_args [alice; bob] hello.

(** The two templates of [hello] as the placeholder parser reads them
    (the body after [Ref.markdown]), and [kwargs] as lines 135-141 leave
    it for the default sender. *)
Definition hello_subject : list Tpl.segment :=
  [Tpl.Lit "Hello "; Tpl.Var "name"; Tpl.Lit "!"].
Definition hello_body : list Tpl.segment :=
  [Tpl.Lit "<p>Welcome, "; Tpl.Var "name"; Tpl.Lit ".</p>"].
Definition sender_kw : gmap string string :=
  <["sender" := "me <me@localhost>"]>
    (<["sender_email" := "me@localhost"]>
       (<["sender_name" := "me"]> ∅)).

Definition three_rows : list (list string) :=
  [["Alice"; "alice@example.com"]; ["Bob"; "bob@example.com"];
   ["Dan"; "dan@example.com"]].


(** A dry run over one record row and one malformed row. *)
Definition dry_two : Args := with_test (default_args [alice; carol] hello).

(** A sender written without the space before the angle bracket, and a
    dry run for one recipient with it. *)
Definition tight_sender : string := "John Smith<john@smith.com>".
Definition tight_run : Args :=
  with_test (with_sender tight_sender (default_args [alice] hello)).

(** A recipient whose address has a character outside ASCII (e with an
    acute accent), and a dry run with that recipient between two others. *)
Definition rene : string :=
  "Rene,ren" +:+ String "233" "@example.com" +:+ Py.NL.
Definition dry_three : Args := with_test (default_args [alice; rene; bob] hello).


(** A message that is a single line. *)
Definition one_line : Args := default_args [alice; bob] "Hello {{ name }}!".

(** A live run with [--tls] and both credentials on the command line. *)
Definition tls_two : Args :=
  {| args_names := [alice; bob]; args_message := hello;
     args_html := false; args_sender := "me <me@localhost>";
     args_interval := 0.25%float; args_hostname := "localhost";
     args_port := 25; args_tls := true;
     args_username := Some "me"; args_password := Some "secret";
     args_test := false |}.

Definition trace_of {Wd} (r : list event * st Wd * result unit)
  : list event := fst (fst r).
Definition outcome_of {Wd} (r : list event * st Wd * result unit)
  : result unit := snd r.

End Ex.

(** ** More readings of a trace *)

(** The [SMTP] objects [starttls] and [login] were called on. *)
Definition upgrades (tr : list event) : list nat :=
  omap (fun ev => match ev with EStartTLS sid => Some sid | _ => None end) tr.

Definition logins (tr : list event) : list nat :=
  omap (fun ev => match ev with ELogin sid _ _ => Some sid | _ => None end)
    tr.

(** The credentials given to [login]. *)
Definition login_credentials (tr : list event)
  : list (option string * option string) :=
  omap (fun ev => match ev with ELogin _ u p => Some (u, p) | _ => None end)
    tr.

(** The durations given to [sleep]. *)
Definition sleeps (tr : list event) : list float :=
  omap (fun ev => match ev with ESleep d => Some d | _ => None end) tr.

(** The envelope sender, recipient and message of each [sendmail]. *)
Definition sent (tr : list event) : list (string * string * string) :=
  omap (fun ev =>
          match ev with
          | ESendMail _ from_addr to_addr msg => Some (from_addr, to_addr, msg)
          | _ => None
          end) tr.

(** A row that is neither blank nor a record. *)
Definition malformed (line : list string) : bool :=
  match line with
  | [] => false
  | [_; _] => false
  | _ => true
  end.

(** The keys lines 137-141 put in [kwargs]. *)
Definition sender_keys : gset string :=
  {["sender_name"; "sender_email"; "sender"]}.

Section Envelopes.

Context (L : Library) (args : Args) (sender_email : string)
        (raw_subject raw_body : Template L) (total : nat).

(** What [sendmail] is given for a row, if it is a two-field row whose
    library calls succeed. *)
Definition row_envelope (index : nat) (line : list string)
    (kwargs : gmap string string) : list (string * string * string) :=
  match line with
  | [name; email] =>
      match outgoing L args raw_subject raw_body total index name email
              kwargs with
      | inr (recipient, _, message) => [(sender_email, recipient, message)]
      | inl _ => []
      end
  | _ => []
  end.

Fixpoint envelopes (index : nat) (rows : list (list string))
    (kwargs : gmap string string) : list (string * string * string) :=
  match rows with
  | [] => []
  | line :: rest =>
      row_envelope index line kwargs
        ++ envelopes (S index) rest (kwargs_after_row L kwargs line)
  end.

End Envelopes.

(** What the SMTP and pacing events of a trace satisfy when they come from
    try blocks run under [args] for the messages of [envelope]: TLS
    upgrade and login only under [--tls], and then before any [sendmail]
    on the same object; [login] with the credentials of [args]; one sleep
    of [args.interval] per printed OK, and no OK without a [sendmail];
    nothing sent but the messages of [envelope], in order; neither OK nor
    sleep in a dry run. *)
Definition disciplined (args : Args) (t : list event)
    (envelope : list (string * string * string)) : Prop :=
  (args_tls args = false -> upgrades t = [] /\ logins t = [])
  /\ (args_tls args = true ->
      sends t `sublist_of` logins t /\ logins t `sublist_of` upgrades t
      /\ upgrades t `sublist_of` connects t)
  /\ Forall (eq (args_username args, args_password args))
       (login_credentials t)
  /\ sleeps t = repeat (args_interval args) (length (printed L186 t))
  /\ Forall (eq ("OK" +:+ Py.NL)) (printed L186 t)
  /\ length (printed L186 t) <= length (sends t)
  /\ sent t `sublist_of` envelope
  /\ (args_test args = true -> sleeps t = [] /\ printed L186 t = []).

(** The diagnostics line 156 prints for the rows of a names file. *)
Definition diagnostics (rows : list (list string)) : list string :=
  map (fun line => diagnostic line +:+ Py.NL) (List.filter malformed rows).

(** The progress text of a row (line 162), [index] being the position of
    the row among all rows of the file. *)
Definition row_progress (L : Library) (total index : nat)
    (line : list string) : list string :=
  match line with
  | [name; email] =>
      match formataddr L (name, email) with
      | inr recipient => [progress_line index total recipient]
      | inl _ => []
      end
  | _ => []
  end.

Fixpoint progress_lines (L : Library) (total index : nat)
    (rows : list (list string)) : list string :=
  match rows with
  | [] => []
  | line :: rest =>
      row_progress L total index line ++ progress_lines L total (S index) rest
  end.

(** One for a row that is a record, zero for any other row. *)
Definition tally (b : bool) : nat := if b then 1 else 0.

(** The questions lines 131-134 ask: one for each credential the command
    line leaves out or gives as the empty string. *)
Definition questions (args : Args) : list event :=
  (if Py.falsy (args_username args) then [EInput "Username: "] else [])
  ++ (if Py.falsy (args_password args) then [EGetpass "Password: "] else []).

(** A call of [print]. *)
Definition is_print (ev : event) : bool :=
  match ev with
  | EPrint _ _ => true
  | _ => false
  end.

(** Whether every [SMTP] object of a trace was created directly after a
    progress text of line 162 was printed; [after_progress] tells whether
    the event before the trace was such a print. *)
Fixpoint announced (after_progress : bool) (tr : list event) : bool :=
  match tr with
  | [] => true
  | EConnect _ _ _ :: rest => after_progress && announced false rest
  | EPrint L162 _ :: rest => announced true rest
  | _ :: rest => announced false rest
  end.

(** When a trace shows no error text of line 189, every [SMTP] object in
    it was used for a [sendmail], and under [--tls] was upgraded and
    logged in on before. *)
Definition all_used (args : Args) (t : list event) : Prop :=
  printed L189 t = [] ->
  sends t = connects t
  /\ (args_tls args = true ->
      upgrades t = connects t /\ logins t = connects t).

(** * Facts about the program *)

(** ** Strings *)

Lemma append_nil_r (s : string) : s +:+ "" = s.
Proof.
  induction s as [|c s IH]; [reflexivity|].
  change (String c (s +:+ "") = String c s). by rewrite IH.
Qed.

Lemma append_assoc (a b c : string) : (a +:+ b) +:+ c = a +:+ b +:+ c.
Proof.
  induction a as [|x a IH]; [reflexivity|].
  change (String x ((a +:+ b) +:+ c) = String x (a +:+ b +:+ c)).
  by rewrite IH.
Qed.

(** ** The [%] operator on the program's three format strings *)

Lemma format_html body : Py.format html [Py.VStr body] = inr (html_page body).
Proof. reflexivity. Qed.

Lemma format_progress index total recipient :
  Py.format "%d / %d: %s... "
    [Py.VInt (Z.of_nat (index + 1)); Py.VInt (Z.of_nat total);
     Py.VStr recipient]
  = inr (progress_line index total recipient).
Proof. reflexivity. Qed.

Lemma format_diagnostic line :
  Py.format
    ("Improperly formatted user: " +:+ Py.DQ +:+ "%s" +:+ Py.DQ +:+ ".")
    [Py.VStr (Py.join "," line)]
  = inr (diagnostic line).
Proof. reflexivity. Qed.

Lemma build_message_eq sender recipient subject body :
  build_message sender recipient subject body
  = inr (mkMessage (message_headers sender recipient subject)
           (Some (html_page body))).
Proof. reflexivity. Qed.

(** ** One iteration *)

Section Iteration.

Context (L : Library) (Wd : World).
Context (args : Args) (sender_email : string)
        (raw_subject raw_body : Template L) (total : nat).

Implicit Types (s : st Wd) (kwargs : gmap string string).

(** The handler turns every exception of the [try] block into a printed
    line; [deliver] itself never raises. *)
Lemma deliver_eq recipient message s :
  deliver Wd args sender_email recipient message s =
  match transmit Wd args sender_email recipient message s with
  | (t, s1, inl e) =>
      (t ++ [EPrint L189 (exn_text e +:+ Py.NL)], s1, inr tt)
  | (t, s1, inr a) => (t, s1, inr a)
  end.
Proof.
  unfold deliver, try_except, print, print_end, emit.
  destruct (transmit _ _ _ _ _ s) as [[t s1] [e|a]]; reflexivity.
Qed.

Lemma deliver_returns recipient message s :
  exists t s1, deliver Wd args sender_email recipient message s
               = (t, s1, inr tt).
Proof.
  rewrite deliver_eq.
  destruct (transmit _ _ _ _ _ s) as [[t s1] [e|[]]]; eauto.
Qed.

Lemma process_outgoing index name email kwargs s recipient progress message :
  outgoing L args raw_subject raw_body total index name email kwargs
    = inr (recipient, progress, message) ->
  process L Wd args sender_email raw_subject raw_body total
    index name email kwargs s =
  match hand_over Wd args sender_email recipient message s with
  | (t, s1, r) =>
      (EPrint L162 progress :: t, s1,
       rmap (fun _ => bind_recipient name email recipient kwargs) r)
  end.
Proof.
  unfold outgoing, process, hand_over, bind_recipient.
  unfold bind at 1. unfold lift at 1.
  destruct (formataddr L (name, email)) as [e|rcp]; [discriminate|].
  cbn [rbind]. unfold bind at 1. unfold lift at 1.
  rewrite format_progress.
  unfold bind at 1. unfold print_end at 1, emit at 1.
  rewrite append_nil_r.
  unfold bind at 1. unfold lift at 1.
  destruct (render L raw_subject _) as [e|subject]; [discriminate|].
  cbn [rbind]. unfold bind at 1. unfold lift at 1.
  destruct (render L raw_body _) as [e|body]; [discriminate|].
  cbn [rbind]. unfold bind at 1. unfold lift at 1.
  rewrite build_message_eq. cbn [rbind].
  unfold bind at 1. unfold lift at 1.
  destruct (as_string L _) as [e|msg]; [discriminate|].
  intros [= <- <- <-].
  unfold bind at 1.
  match goal with
  | |- context [ (if args_test args then ?a else ?b) s ] =>
      destruct ((if args_test args then a else b) s) as [[t s1] [e|[]]]
  end; [reflexivity|].
  unfold ret. cbn [app rmap]. by rewrite app_nil_r.
Qed.

Lemma hand_over_test recipient message s :
  args_test args = true ->
  hand_over Wd args sender_email recipient message s
  = ([EPrint L174 ("Testing" +:+ Py.NL); EPrint L175 (message +:+ Py.NL)],
     s, inr tt).
Proof. unfold hand_over. intros ->. reflexivity. Qed.

Lemma hand_over_live recipient message s :
  args_test args = false ->
  hand_over Wd args sender_email recipient message s =
  match transmit Wd args sender_email recipient message s with
  | (t, s1, r) => (handled t r, s1, inr tt)
  end.
Proof.
  unfold hand_over. intros ->. rewrite deliver_eq.
  destruct (transmit _ _ _ _ _ s) as [[t s1] [e|[]]]; reflexivity.
Qed.

Lemma hand_over_returns recipient message s :
  exists t s1, hand_over Wd args sender_email recipient message s
               = (t, s1, inr tt).
Proof.
  destruct (args_test args) eqn:Ht.
  - rewrite hand_over_test by done. eauto.
  - rewrite hand_over_live by done.
    destruct (transmit _ _ _ _ _ s) as [[t s1] r]. eauto.
Qed.

(** A row whose library calls raise: nothing but the progress text can
    have been printed, and the world has not been touched. *)
Lemma process_raises index name email kwargs s e :
  outgoing L args raw_subject raw_body total index name email kwargs
    = inl e ->
  exists t,
    process L Wd args sender_email raw_subject raw_body total
      index name email kwargs s = (t, s, inl e)
    /\ (t = [] \/ exists p, t = [EPrint L162 p]).
Proof.
  unfold outgoing, process, bind_recipient.
  unfold bind at 1. unfold lift at 1.
  destruct (formataddr L (name, email)) as [e1|rcp].
  { intros [= ->]. eauto. }
  cbn [rbind]. unfold bind at 1. unfold lift at 1.
  rewrite format_progress.
  unfold bind at 1. unfold print_end at 1, emit at 1.
  rewrite append_nil_r.
  unfold bind at 1. unfold lift at 1.
  destruct (render L raw_subject _) as [e1|subject].
  { intros [= ->]. eauto. }
  cbn [rbind]. unfold bind at 1. unfold lift at 1.
  destruct (render L raw_body _) as [e1|body].
  { intros [= ->]. eauto. }
  cbn [rbind]. unfold bind at 1. unfold lift at 1.
  rewrite build_message_eq. cbn [rbind].
  unfold bind at 1. unfold lift at 1.
  destruct (as_string L _) as [e1|msg]; [|discriminate].
  intros [= ->]. eauto.
Qed.

Abbreviation iteration' :=
  (iteration L Wd args sender_email raw_subject raw_body total).
Abbreviation loop' :=
  (loop L Wd args sender_email raw_subject raw_body total).
Abbreviation outgoing' := (outgoing L args raw_subject raw_body total).

Lemma iteration_blank index kwargs s :
  iteration' index [] kwargs s = ([], s, inr kwargs).
Proof. reflexivity. Qed.

Lemma iteration_malformed index line kwargs s :
  two_fields line = false -> line <> [] ->
  iteration' index line kwargs s
  = ([EPrint L156 (diagnostic line +:+ Py.NL)], s, inr kwargs).
Proof.
  intros Htwo Hne.
  assert (iteration' index line kwargs s =
          bind Wd (lift Wd (Py.format
                     ("Improperly formatted user: " +:+ Py.DQ +:+ "%s"
                        +:+ Py.DQ +:+ ".") [Py.VStr (Py.join "," line)]))
            (fun text => bind Wd (print Wd L156 text)
                           (fun _ => ret Wd kwargs)) s) as ->.
  { destruct line as [|a [|b [|c l]]]; try reflexivity; done. }
  rewrite format_diagnostic. reflexivity.
Qed.

(** Whatever a row does, it leaves [kwargs] as [kwargs_after_row] says. *)
Lemma iteration_kwargs index line kwargs s t s1 kwargs' :
  iteration' index line kwargs s = (t, s1, inr kwargs') ->
  kwargs' = kwargs_after_row L kwargs line.
Proof.
  destruct (two_fields line) eqn:Htwo.
  - destruct line as [|name [|email [|c l]]]; try discriminate.
    cbn [iteration kwargs_after_row].
    destruct (outgoing' index name email kwargs)
      as [e|[[rcp prog] msg]] eqn:Hout.
    + destruct (process_raises index name email kwargs s e Hout)
        as (t' & -> & _). discriminate.
    + rewrite (process_outgoing _ _ _ _ _ _ _ _ Hout).
      assert (formataddr L (name, email) = inr rcp) as ->.
      { revert Hout. unfold outgoing.
        destruct (formataddr L (name, email)) as [e|r]; [discriminate|].
        cbn [rbind].
        destruct (render L raw_subject _); [discriminate|]. cbn [rbind].
        destruct (render L raw_body _); [discriminate|]. cbn [rbind].
        rewrite build_message_eq. cbn [rbind].
        destruct (as_string L _); [discriminate|]. by intros [= -> _ _]. }
      destruct (hand_over _ _ _ _ _ s) as [[t2 s2] [e|[]]];
        [discriminate|]. by intros [= _ _ <-].
  - destruct line as [|a l].
    + rewrite iteration_blank. by intros [= _ _ <-].
    + rewrite iteration_malformed by done.
      intros [= _ _ <-].
      destruct l as [|b [|c l]]; try reflexivity. discriminate.
Qed.

Lemma loop_cons index line rest kwargs s :
  loop' index (line :: rest) kwargs s =
  match iteration' index line kwargs s with
  | (t1, s1, inl e) => (t1, s1, inl e)
  | (t1, s1, inr kwargs') =>
      match loop' (S index) rest kwargs' s1 with
      | (t2, s2, r) => (t1 ++ t2, s2, r)
      end
  end.
Proof. reflexivity. Qed.

(** The loop over [pre ++ post] is the loop over [pre] followed, unless
    it raised, by the loop over [post] from where [pre] left off. *)
Lemma loop_app index pre post kwargs s :
  loop' index (pre ++ post) kwargs s =
  match loop' index pre kwargs s with
  | (t1, s1, inl e) => (t1, s1, inl e)
  | (t1, s1, inr _) =>
      match loop' (index + length pre) post (kwargs_after L pre kwargs) s1
      with
      | (t2, s2, r) => (t1 ++ t2, s2, r)
      end
  end.
Proof.
  revert index kwargs s.
  induction pre as [|line pre IH]; intros index kwargs s.
  - cbn [app loop length kwargs_after fold_left]. unfold ret.
    rewrite Nat.add_0_r.
    by destruct (loop' index post kwargs s) as [[t2 s2] r].
  - rewrite <- app_comm_cons, !loop_cons.
    destruct (iteration' index line kwargs s) as [[t1 s1] [e|kw1]] eqn:Hit;
      [reflexivity|].
    apply iteration_kwargs in Hit as ->.
    rewrite IH.
    destruct (loop' (S index) pre _ s1) as [[t2 s2] [e|[]]];
      [reflexivity|].
    cbn [length kwargs_after fold_left].
    replace (index + S (length pre)) with (S index + length pre) by lia.
    fold (kwargs_after L pre (kwargs_after_row L kwargs line)).
    destruct (loop' (S index + length pre) post _ s2) as [[t3 s3] r].
    by rewrite app_assoc.
Qed.

(** *** Sessions *)

Lemma transmit_sessions recipient message s t s1 r :
  transmit Wd args sender_email recipient message s = (t, s1, r) ->
  connects t = [sessions s]
  /\ (sends t = [] \/ sends t = [sessions s])
  /\ sessions s1 = S (sessions s).
Proof.
  unfold transmit, bind, SMTP, starttls, login, sendmail, print, print_end,
    sleep, emit, ret.
  destruct (w_connect Wd _ _ (world s)) as [w1 [e|[]]]; cbn [rmap].
  { intros [= <- <- <-]. cbn. auto. }
  destruct (args_tls args).
  - cbn [world sessions].
    destruct (w_starttls Wd _ w1) as [w2 [e|[]]].
    { intros [= <- <- <-]. cbn. auto. }
    cbn [world sessions].
    destruct (w_login Wd _ _ _ w2) as [w3 [e|[]]].
    { intros [= <- <- <-]. cbn. auto. }
    cbn [world sessions].
    destruct (w_sendmail Wd _ _ _ _ w3) as [w4 [e|[]]];
      [|cbn [world sessions]; destruct (w_sleep Wd _ w4) as [w5 [e|[]]]];
      intros [= <- <- <-]; cbn; auto.
  - cbn [world sessions].
    destruct (w_sendmail Wd _ _ _ _ w1) as [w4 [e|[]]];
      [|cbn [world sessions]; destruct (w_sleep Wd _ w4) as [w5 [e|[]]]];
      intros [= <- <- <-]; cbn; auto.
Qed.

Lemma connects_handled t r : connects (handled t r) = connects t.
Proof.
  destruct r; [|done]. unfold handled, connects.
  rewrite omap_app. cbn. by rewrite app_nil_r.
Qed.

Lemma sends_handled t r : sends (handled t r) = sends t.
Proof.
  destruct r; [|done]. unfold handled, sends.
  rewrite omap_app. cbn. by rewrite app_nil_r.
Qed.

Lemma sublist_one (x : nat) (l : list nat) :
  l = [] \/ l = [x] -> l `sublist_of` [x].
Proof. intros [-> | ->]; [apply sublist_nil_l | done]. Qed.

(** One row creates at most one [SMTP] object, a live record row that
    does not raise exactly one, and only that object is sent on. *)
Lemma iteration_sessions index line kwargs s t s1 r :
  iteration' index line kwargs s = (t, s1, r) ->
  exists n,
    connects t = seq (sessions s) n
    /\ sends t `sublist_of` connects t
    /\ sessions s1 = sessions s + n
    /\ (args_test args = true -> n = 0)
    /\ (args_test args = false -> forall kw, r = inr kw ->
        n = if two_fields line then 1 else 0).
Proof.
  destruct (two_fields line) eqn:Htwo.
  - destruct line as [|name [|email [|c l]]]; try discriminate.
    cbn [iteration].
    destruct (outgoing' index name email kwargs)
      as [e|[[rcp prog] msg]] eqn:Hout.
    + destruct (process_raises index name email kwargs s e Hout)
        as (t' & -> & Ht). intros [= <- <- <-]. exists 0.
      rewrite Nat.add_0_r.
      destruct Ht as [-> | [p ->]]; cbn; split_and!; done.
    + rewrite (process_outgoing _ _ _ _ _ _ _ _ Hout).
      destruct (args_test args) eqn:Ht.
      * rewrite hand_over_test by done. intros [= <- <- <-]. exists 0.
        rewrite Nat.add_0_r. cbn. split_and!; done.
      * rewrite hand_over_live by done.
        destruct (transmit _ _ _ _ _ s) as [[t2 s2] r2] eqn:Htr.
        apply transmit_sessions in Htr as (Hc & Hs & Hn).
        intros [= <- <- <-]. exists 1.
        change (connects (EPrint L162 prog :: handled t2 r2))
          with (connects (handled t2 r2)).
        change (sends (EPrint L162 prog :: handled t2 r2))
          with (sends (handled t2 r2)).
        rewrite connects_handled, sends_handled, Hc.
        split_and!; [done | by apply sublist_one | lia | done | done].
  - intros Hit. exists 0. rewrite Nat.add_0_r.
    destruct line as [|a l].
    + rewrite iteration_blank in Hit. injection Hit as <- <- <-.
      cbn. split_and!; done.
    + rewrite iteration_malformed in Hit by done.
      injection Hit as <- <- <-. cbn. split_and!; done.
Qed.

Lemma count_records_cons line rows :
  count_records (line :: rows)
  = (if two_fields line then 1 else 0) + count_records rows.
Proof. unfold count_records. cbn. by destruct (two_fields line). Qed.

Lemma loop_sessions index rows kwargs s t s1 r :
  loop' index rows kwargs s = (t, s1, r) ->
  exists n,
    connects t = seq (sessions s) n
    /\ sends t `sublist_of` connects t
    /\ sessions s1 = sessions s + n
    /\ (args_test args = true -> n = 0)
    /\ (args_test args = false -> r = inr tt -> n = count_records rows).
Proof.
  revert index kwargs s t s1 r.
  induction rows as [|line rows IH]; intros index kwargs s t s1 r.
  - intros [= <- <- <-]. exists 0. rewrite Nat.add_0_r.
    cbn. split_and!; done.
  - rewrite loop_cons.
    destruct (iteration' index line kwargs s) as [[t1 s2] r1] eqn:Hit.
    apply iteration_sessions in Hit as (n1 & Hc1 & Hs1 & Hn1 & Ht1 & Hl1).
    destruct r1 as [e|kw1].
    + intros [= <- <- <-]. exists n1. split_and!; try done.
    + destruct (loop' (S index) rows kw1 s2) as [[t2 s3] r2] eqn:Hlp.
      apply IH in Hlp as (n2 & Hc2 & Hs2 & Hn2 & Ht2 & Hl2).
      intros [= <- <- <-]. exists (n1 + n2).
      unfold connects, sends in *. rewrite !omap_app, Hc1, Hc2, Hn1.
      rewrite seq_app. split_and!.
      * done.
      * rewrite <- Hc1, <- Hn1, <- Hc2. by apply sublist_app.
      * lia.
      * intros Ht. rewrite Ht1, Ht2; done.
      * intros Ht Hr. rewrite count_records_cons.
        rewrite (Hl1 Ht kw1 eq_refl), (Hl2 Ht Hr). done.
Qed.

(** *** Dry runs *)

Abbreviation no_smtp := (Forall (fun ev => is_smtp ev = false)).

Lemma iteration_test index line kwargs s t s1 r :
  args_test args = true ->
  iteration' index line kwargs s = (t, s1, r) ->
  s1 = s /\ no_smtp t
  /\ forall kw, r = inr kw ->
       printed L175 t
       = map (fun m => m +:+ Py.NL)
           (row_message L args raw_subject raw_body total index line kwargs)
       /\ length (printed L175 t) = if two_fields line then 1 else 0.
Proof.
  intros Htest.
  destruct (two_fields line) eqn:Htwo.
  - destruct line as [|name [|email [|c l]]]; try discriminate.
    cbn [iteration row_message].
    destruct (outgoing' index name email kwargs)
      as [e|[[rcp prog] msg]] eqn:Hout.
    + destruct (process_raises index name email kwargs s e Hout)
        as (t' & -> & Ht). intros [= <- <- <-].
      split_and!; [done| |done].
      destruct Ht as [-> | [p ->]]; repeat constructor.
    + rewrite (process_outgoing _ _ _ _ _ _ _ _ Hout).
      rewrite hand_over_test by done. intros [= <- <- <-].
      split_and!; [done|repeat constructor|done].
  - intros Hit. destruct line as [|a l].
    + rewrite iteration_blank in Hit. injection Hit as <- <- <-.
      split_and!; [done|constructor|done].
    + rewrite iteration_malformed in Hit by done.
      injection Hit as <- <- <-.
      assert (row_message L args raw_subject raw_body total index (a :: l)
                kwargs = []) as ->.
      { destruct l as [|b [|c l]]; try reflexivity. discriminate. }
      split_and!; [done|repeat constructor|done].
Qed.

Lemma loop_test index rows kwargs s t s1 r :
  args_test args = true ->
  loop' index rows kwargs s = (t, s1, r) ->
  s1 = s /\ no_smtp t
  /\ (r = inr tt ->
      printed L175 t
      = map (fun m => m +:+ Py.NL)
          (messages L args raw_subject raw_body total index rows kwargs)
      /\ length (printed L175 t) = count_records rows).
Proof.
  intros Htest. revert index kwargs s t s1 r.
  induction rows as [|line rows IH]; intros index kwargs s t s1 r.
  - intros [= <- <- <-]. split_and!; [done|constructor|done].
  - rewrite loop_cons.
    destruct (iteration' index line kwargs s) as [[t1 s2] r1] eqn:Hit.
    pose proof (iteration_test _ _ _ _ _ _ _ Htest Hit) as (-> & Hn1 & Hp1).
    destruct r1 as [e|kw1].
    + intros [= <- <- <-]. split_and!; done.
    + pose proof (iteration_kwargs _ _ _ _ _ _ _ Hit) as ->.
      destruct (loop' (S index) rows _ s) as [[t2 s3] r2] eqn:Hlp.
      apply IH in Hlp as (-> & Hn2 & Hp2).
      intros [= <- <- <-].
      split_and!; [done|by apply Forall_app|].
      intros Hr. destruct (Hp1 _ eq_refl) as [Hm1 Hl1].
      destruct (Hp2 Hr) as [Hm2 Hl2].
      unfold printed in *. rewrite omap_app, length_app, Hl1, Hl2.
      rewrite Hm1, Hm2. cbn [messages]. rewrite map_app.
      by rewrite count_records_cons.
Qed.

End Iteration.

(** ** The start of a run *)

Section Setup.

Context (L : Library) (Wd : World).

Lemma same_options_refl a : same_options a a.
Proof. unfold same_options. split_and!; done. Qed.

(** Lines 129-134 print the banner and prompt; they touch neither the
    SMTP server nor any option but the credentials. *)
Lemma prompt_credentials_spec args (s : st Wd) t s1 r :
  prompt_credentials Wd args s = (t, s1, r) ->
  Forall (fun ev => is_prelude ev = true) t
  /\ sessions s1 = sessions s
  /\ forall a, r = inr a -> same_options args a.
Proof.
  unfold prompt_credentials.
  destruct (args_tls args) eqn:Htls.
  2:{ intros [= <- <- <-]. split_and!; [constructor|done|].
      intros a [= <-]. apply same_options_refl. }
  unfold bind, print, print_end, emit, input, getpass, ret.
  destruct (Py.falsy (args_username args)).
  - destruct (w_input Wd _ (world s)) as [w1 [e|u]].
    { intros [= <- <- <-]. split_and!; [repeat constructor|done|done]. }
    cbn [args_password set_username].
    destruct (Py.falsy (args_password args)).
    + cbn [world sessions].
      destruct (w_getpass Wd _ w1) as [w2 [e|p]]; intros [= <- <- <-];
        (split_and!; [repeat constructor|done|]); [done|].
      intros a [= <-]. unfold same_options. cbn. split_and!; done.
    + intros [= <- <- <-]. split_and!; [repeat constructor|done|].
      intros a [= <-]. unfold same_options. cbn. split_and!; done.
  - destruct (Py.falsy (args_password args)).
    + destruct (w_getpass Wd _ (world s)) as [w2 [e|p]]; intros [= <- <- <-];
        (split_and!; [repeat constructor|done|]); [done|].
      intros a [= <-]. unfold same_options. cbn. split_and!; done.
    + intros [= <- <- <-]. split_and!; [repeat constructor|done|].
      intros a [= <-]. apply same_options_refl.
Qed.

(** [main] is the prompts, the setup of lines 135-149 and the loop. *)
Lemma main_eq args (s : st Wd) :
  main L Wd args s =
  match prompt_credentials Wd args s with
  | (t0, s0, inl e) => (t0, s0, inl e)
  | (t0, s0, inr a) =>
      match sender_kwargs L a with
      | inl e => (t0, s0, inl e)
      | inr kwargs =>
          match compile_templates L a with
          | inl e => (t0, s0, inl e)
          | inr (raw_subject, raw_body) =>
              match reader L (args_names a) with
              | inl e => (t0, s0, inl e)
              | inr rows =>
                  match loop L Wd a (snd (parseaddr L (args_sender a)))
                          raw_subject raw_body (length rows) 0 rows
                          kwargs s0
                  with
                  | (t1, s1, r) => (t0 ++ t1, s1, r)
                  end
              end
          end
      end
  end.
Proof.
  unfold main, bind, lift.
  destruct (prompt_credentials Wd args s) as [[t0 s0] [e|a]]; [done|].
  destruct (sender_kwargs L a) as [e|kwargs]; [by rewrite app_nil_r|].
  destruct (compile_templates L a) as [e|[tS tB]]; [by rewrite app_nil_r|].
  destruct (reader L (args_names a)) as [e|rows]; [by rewrite app_nil_r|].
  by destruct (loop _ _ _ _ _ _ _ _ _ _ s0) as [[t1 s1] r].
Qed.

Lemma sender_kwargs_ext a b :
  args_sender a = args_sender b -> sender_kwargs L a = sender_kwargs L b.
Proof. unfold sender_kwargs. by intros ->. Qed.

Lemma compile_templates_ext a b :
  args_message a = args_message b -> args_html a = args_html b ->
  compile_templates L a = compile_templates L b.
Proof. unfold compile_templates. by intros -> ->. Qed.

Lemma outgoing_ext a b tS tB total index name email kwargs :
  args_sender a = args_sender b ->
  outgoing L a tS tB total index name email kwargs
  = outgoing L b tS tB total index name email kwargs.
Proof. unfold outgoing. by intros ->. Qed.

Lemma messages_ext a b tS tB total index rows kwargs :
  args_sender a = args_sender b ->
  messages L a tS tB total index rows kwargs
  = messages L b tS tB total index rows kwargs.
Proof.
  intros H. revert index kwargs.
  induction rows as [|line rows IH]; intros index kwargs; [done|].
  cbn [messages]. rewrite IH. f_equal.
  destruct line as [|name [|email [|c l]]]; try reflexivity.
  cbn [row_message]. by rewrite (outgoing_ext a b).
Qed.

End Setup.

(** ** Events of the prelude *)

Lemma prelude_no_smtp (t : list event) :
  Forall (fun ev => is_prelude ev = true) t ->
  connects t = [] /\ sends t = [] /\ Forall (fun ev => is_smtp ev = false) t.
Proof.
  induction 1 as [|ev t Hev _ (Hc & Hs & Hn)].
  - split_and!; [done|done|constructor].
  - destruct ev as [l ? | | | | | | |]; try discriminate;
      (split_and!; [done|done|by constructor]).
Qed.

(** ** The [try] block, event by event (lines 177-189) *)

Section TryBlock.

Context (L : Library) (Wd : World).
Context (args : Args) (sender_email : string)
        (raw_subject raw_body : Template L) (total : nat).

Implicit Types (s : st Wd) (kwargs : gmap string string).

(** The try block stops at the first operation that raises: its events
    are the connection alone, or up to [starttls], up to [login], up to
    [sendmail], or all of them with the OK line and the sleep. *)
Lemma transmit_cases recipient message s t s1 r :
  transmit Wd args sender_email recipient message s = (t, s1, r) ->
  let c := EConnect (sessions s) (args_hostname args) (args_port args) in
  let u := EStartTLS (sessions s) in
  let g := ELogin (sessions s) (args_username args) (args_password args) in
  let m := ESendMail (sessions s) sender_email recipient message in
  let k := EPrint L186 ("OK" +:+ Py.NL) in
  let z := ESleep (args_interval args) in
  if args_tls args
  then In t [[c]; [c; u]; [c; u; g]; [c; u; g; m]; [c; u; g; m; k; z]]
  else In t [[c]; [c; m]; [c; m; k; z]].
Proof.
  unfold transmit, bind, SMTP, starttls, login, sendmail, print, print_end,
    sleep, emit, ret.
  destruct (w_connect Wd _ _ (world s)) as [w1 [e|[]]]; cbn [rmap].
  { intros [= <- <- <-]. destruct (args_tls args); cbn; auto. }
  destruct (args_tls args).
  - cbn [world sessions].
    destruct (w_starttls Wd _ w1) as [w2 [e|[]]].
    { intros [= <- <- <-]. cbn. auto. }
    cbn [world sessions].
    destruct (w_login Wd _ _ _ w2) as [w3 [e|[]]].
    { intros [= <- <- <-]. cbn. auto. }
    cbn [world sessions].
    destruct (w_sendmail Wd _ _ _ _ w3) as [w4 [e|[]]];
      [|cbn [world sessions]; destruct (w_sleep Wd _ w4) as [w5 [e|[]]]];
      intros [= <- <- <-]; cbn; auto 10.
  - cbn [world sessions].
    destruct (w_sendmail Wd _ _ _ _ w1) as [w4 [e|[]]];
      [|cbn [world sessions]; destruct (w_sleep Wd _ w4) as [w5 [e|[]]]];
      intros [= <- <- <-]; cbn; auto 10.
Qed.

Lemma disciplined_nil : disciplined args [] [].
Proof. unfold disciplined. cbn. split_and!; try done; constructor. Qed.

Lemma disciplined_silent t :
  Forall (fun ev => match ev with EPrint l _ => l <> L186 | _ => False end) t ->
  disciplined args t [].
Proof.
  intros H. assert (upgrades t = [] /\ logins t = [] /\ sends t = []
                    /\ connects t = [] /\ login_credentials t = []
                    /\ sleeps t = [] /\ printed L186 t = [] /\ sent t = [])
    as Hall.
  { induction H as [|ev t Hev _ IH]; [done|].
    destruct ev as [l ?| | | | | | |]; try done.
    cbn. destruct l; try done. }
  unfold disciplined.
  destruct Hall as (-> & -> & -> & -> & -> & -> & -> & ->).
  apply disciplined_nil.
Qed.

Lemma disciplined_app t1 t2 e1 e2 :
  disciplined args t1 e1 -> disciplined args t2 e2 ->
  disciplined args (t1 ++ t2) (e1 ++ e2).
Proof.
  unfold disciplined, upgrades, logins, sends, connects, login_credentials,
    sleeps, printed, sent.
  intros (A1 & B1 & C1 & D1 & E1 & F1 & G1 & H1)
         (A2 & B2 & C2 & D2 & E2 & F2 & G2 & H2).
  rewrite !omap_app, !length_app. split_and!.
  - intros Ht. destruct (A1 Ht) as [-> ->]. destruct (A2 Ht) as [-> ->]. done.
  - intros Ht. destruct (B1 Ht) as (? & ? & ?). destruct (B2 Ht) as (? & ? & ?).
    split_and!; by apply sublist_app.
  - by apply Forall_app.
  - by rewrite D1, D2, repeat_app.
  - by apply Forall_app.
  - lia.
  - by apply sublist_app.
  - intros Ht. destruct (H1 Ht) as [-> ->]. destruct (H2 Ht) as [-> ->]. done.
Qed.

Lemma disciplined_transmit recipient message s t s1 r :
  args_test args = false ->
  transmit Wd args sender_email recipient message s = (t, s1, r) ->
  disciplined args (handled t r) [(sender_email, recipient, message)].
Proof.
  intros Htest Htr. pose proof (transmit_cases _ _ _ _ _ _ Htr) as Hc.
  cbv zeta in Hc.
  assert (forall t', disciplined args t'
                       [(sender_email, recipient, message)] ->
                     disciplined args (handled t' r)
                       [(sender_email, recipient, message)]) as Hh.
  { intros t' Ht'. destruct r as [e|[]]; [|done]. cbn [handled].
    rewrite <- (app_nil_r [(sender_email, recipient, message)]).
    apply disciplined_app; [done|]. apply disciplined_silent.
    repeat constructor. done. }
  apply Hh. clear Hh Htr. unfold disciplined.
  rewrite Htest.
  destruct (args_tls args); cbn in Hc;
    repeat (destruct Hc as [<- | Hc]); try done; cbn;
    (split_and!; try done; try discriminate; try lia;
     repeat (first [apply sublist_nil_l | apply sublist_skip; done
                   | constructor; done | constructor])).
Qed.


Lemma disciplined_iteration index line kwargs s t s1 r :
  iteration L Wd args sender_email raw_subject raw_body total
    index line kwargs s = (t, s1, r) ->
  disciplined args t
    (row_envelope L args sender_email raw_subject raw_body total
       index line kwargs).
Proof.
  destruct (two_fields line) eqn:Htwo.
  - destruct line as [|name [|email [|c l]]]; try discriminate.
    cbn [iteration row_envelope].
    destruct (outgoing L args raw_subject raw_body total index name email
                kwargs) as [e|[[rcp prog] msg]] eqn:Hout.
    + destruct (process_raises L Wd args sender_email raw_subject raw_body
                  total index name email kwargs s e Hout) as (t' & -> & Ht).
      intros [= <- <- <-]. apply disciplined_silent.
      destruct Ht as [-> | [p ->]]; repeat constructor. done.
    + rewrite (process_outgoing _ _ _ _ _ _ _ _ _ _ _ _ _ _ _ Hout).
      destruct (args_test args) eqn:Ht.
      * rewrite hand_over_test by done. intros [= <- <- <-].
        apply (disciplined_app [_; _; _] [] [] [_]);
          [|unfold disciplined; rewrite Ht; cbn;
            split_and!; try done; try constructor; apply sublist_nil_l].
        apply disciplined_silent. repeat constructor; done.
      * rewrite hand_over_live by done.
        destruct (transmit _ _ _ _ _ s) as [[t2 s2] r2] eqn:Htr.
        intros [= <- <- <-].
        apply (disciplined_app [_] _ [] [_]);
          [apply disciplined_silent; repeat constructor; done|].
        by apply (disciplined_transmit _ _ _ _ _ _ Ht Htr).
  - intros Hit.
    assert (row_envelope L args sender_email raw_subject raw_body total
              index line kwargs = []) as ->.
    { destruct line as [|a [|b [|c l]]]; try reflexivity. discriminate. }
    destruct line as [|a l].
    + rewrite iteration_blank in Hit. injection Hit as <- <- <-.
      apply disciplined_nil.
    + rewrite iteration_malformed in Hit by done.
      injection Hit as <- <- <-. apply disciplined_silent.
      repeat constructor. done.
Qed.

Lemma disciplined_loop index rows kwargs s t s1 r :
  loop L Wd args sender_email raw_subject raw_body total
    index rows kwargs s = (t, s1, r) ->
  disciplined args t
    (envelopes L args sender_email raw_subject raw_body total
       index rows kwargs).
Proof.
  revert index kwargs s t s1 r.
  induction rows as [|line rows IH]; intros index kwargs s t s1 r.
  - intros [= <- <- <-]. apply disciplined_nil.
  - rewrite loop_cons. cbn [envelopes].
    destruct (iteration _ _ _ _ _ _ _ index line kwargs s)
      as [[t1 s2] r1] eqn:Hit.
    pose proof (disciplined_iteration _ _ _ _ _ _ _ Hit) as H1.
    destruct r1 as [e|kw1].
    + intros [= <- <- <-].
      rewrite <- (app_nil_r t1). apply disciplined_app; [done|].
      unfold disciplined. cbn.
      split_and!; try done; try constructor; apply sublist_nil_l.
    + pose proof (iteration_kwargs _ _ _ _ _ _ _ _ _ _ _ _ _ _ Hit) as ->.
      destruct (loop _ _ _ _ _ _ _ (S index) rows _ s2)
        as [[t2 s3] r2] eqn:Hlp.
      intros [= <- <- <-]. apply disciplined_app; [done|].
      by apply (IH _ _ _ _ _ _ Hlp).
Qed.

End TryBlock.

(** ** Whole runs *)

Section Runs.

Context (L : Library) (Wd : World).

Lemma disciplined_prelude args t :
  Forall (fun ev => is_prelude ev = true) t -> disciplined args t [].
Proof.
  intros H. assert (upgrades t = [] /\ logins t = [] /\ sends t = []
                    /\ connects t = [] /\ login_credentials t = []
                    /\ sleeps t = [] /\ printed L186 t = [] /\ sent t = [])
    as Hall.
  { induction H as [|ev t Hev _ IH]; [done|].
    destruct ev as [l ?| | | | | | |]; try done.
    cbn. destruct l; try done. }
  unfold disciplined.
  destruct Hall as (-> & -> & -> & -> & -> & -> & -> & ->).
  cbn. split_and!; try done; constructor.
Qed.

(** The credentials the command line gives are never asked for again. *)
Lemma prompt_credentials_keeps args (s : st Wd) t s1 a :
  prompt_credentials Wd args s = (t, s1, inr a) ->
  (Py.falsy (args_username args) = false ->
   args_username a = args_username args)
  /\ (Py.falsy (args_password args) = false ->
      args_password a = args_password args).
Proof.
  destruct args as [nm msg h sd iv hn pt tls u pw tst].
  unfold prompt_credentials, bind, print, print_end, emit, input, getpass,
    ret, set_username, set_password.
  cbn. destruct tls; [|by intros [= <- <- <-]].
  destruct (Py.falsy u) eqn:Hu; cbn.
  - destruct (w_input Wd _ (world s)) as [w1 [e|u1]]; [discriminate|].
    cbn. destruct (Py.falsy pw) eqn:Hp.
    + cbn. destruct (w_getpass Wd _ w1) as [w2 [e|p]]; [discriminate|].
      intros [= <- <- <-]. done.
    + intros [= <- <- <-]. done.
  - destruct (Py.falsy pw) eqn:Hp.
    + cbn. destruct (w_getpass Wd _ (world s)) as [w2 [e|p]]; [discriminate|].
      intros [= <- <- <-]. done.
    + intros [= <- <- <-]. done.
Qed.

Lemma envelopes_ext a b sender_email tS tB total index rows kwargs :
  args_sender a = args_sender b ->
  envelopes L a sender_email tS tB total index rows kwargs
  = envelopes L b sender_email tS tB total index rows kwargs.
Proof.
  intros H. revert index kwargs.
  induction rows as [|line rows IH]; intros index kwargs; [done|].
  cbn [envelopes]. rewrite IH. f_equal.
  destruct line as [|name [|email [|c l]]]; try reflexivity.
  cbn [row_envelope]. by rewrite (outgoing_ext L a b).
Qed.

(** A run is the prompts followed by a loop under the command line the
    prompts leave; its trace keeps the discipline of the try blocks. *)
Lemma run_disciplined args w tr s r :
  run L Wd args w = (tr, s, r) ->
  exists a,
    same_options args a
    /\ (Py.falsy (args_username args) = false ->
        args_username a = args_username args)
    /\ (Py.falsy (args_password args) = false ->
        args_password a = args_password args)
    /\ (exists envelope, disciplined a tr envelope)
    /\ (forall rows raw_subject raw_body kwargs,
          reader L (args_names args) = inr rows ->
          compile_templates L args = inr (raw_subject, raw_body) ->
          sender_kwargs L args = inr kwargs ->
          disciplined a tr
            (envelopes L args (snd (parseaddr L (args_sender args)))
               raw_subject raw_body (length rows) 0 rows kwargs)).
Proof.
  unfold run. rewrite main_eq.
  destruct (prompt_credentials Wd args (mkSt w 0)) as [[t0 s0] r0] eqn:Hp.
  pose proof (prompt_credentials_spec _ _ _ _ _ _ Hp) as (Hpre & _ & Hopt).
  assert (forall a envelope, disciplined a t0 envelope) as Hquiet.
  { intros a envelope. pose proof (disciplined_prelude a t0 Hpre) as Hd.
    unfold disciplined in *.
    destruct Hd as (A & B & C & D & E & F & G & H).
    split_and!; try done.
    apply prelude_no_smtp in Hpre as (_ & Hs & _).
    assert (sent t0 = []) as ->; [|apply sublist_nil_l].
    clear -Hs. induction t0 as [|ev t IH]; [done|].
    destruct ev; try done; by apply IH. }
  destruct r0 as [e|a].
  { intros [= <- <- <-]. exists args.
    split_and!; [apply same_options_refl|done|done|by exists []|].
    intros; apply Hquiet. }
  pose proof (prompt_credentials_keeps _ _ _ _ _ Hp) as [Hu Hpw].
  pose proof (Hopt a eq_refl) as Hsame.
  destruct Hsame as (Hnames & Hmsg & Hhtml & Hsender & Hrest).
  rewrite <- (sender_kwargs_ext L args a Hsender).
  rewrite <- (compile_templates_ext L args a Hmsg Hhtml), <- Hnames.
  assert (same_options args a) as Hsame by (unfold same_options; done).
  destruct (sender_kwargs L args) as [e|kwargs].
  { intros [= <- <- <-]. exists a.
    split_and!; [done|done|done|by exists []|]. intros; apply Hquiet. }
  destruct (compile_templates L args) as [e|[tS tB]].
  { intros [= <- <- <-]. exists a.
    split_and!; [done|done|done|by exists []|]. intros; apply Hquiet. }
  destruct (reader L (args_names args)) as [e|rows].
  { intros [= <- <- <-]. exists a.
    split_and!; [done|done|done|by exists []|]. intros; apply Hquiet. }
  destruct (loop _ _ _ _ _ _ _ _ _ _ s0) as [[t1 s1] r1] eqn:Hl.
  apply disciplined_loop in Hl.
  rewrite (envelopes_ext a args), <- Hsender in Hl by done.
  intros [= <- <- <-]. exists a.
  assert (disciplined a (t0 ++ t1)
            (envelopes L args (snd (parseaddr L (args_sender args)))
               tS tB (length rows) 0 rows kwargs)) as Hd.
  { rewrite <- (app_nil_l (envelopes _ _ _ _ _ _ _ _ _)).
    apply disciplined_app; [by apply disciplined_prelude|done]. }
  split_and!; [done|done|done|by eexists|].
  intros rows' tS' tB' kw' [= <-] [= <- <-] [= <-]. done.
Qed.

End Runs.

(** ** A record row, step by step (lines 158-189) *)

Section Row.

Context (L : Library) (Wd : World).
Context (args : Args) (sender_email : string)
        (raw_subject raw_body : Template L) (total : nat).

Implicit Types (s : st Wd) (kwargs : gmap string string).

(** What [process] does, call by call: [formataddr], the progress text,
    the two renders with the same context, the serialization, and the
    dry-run printout or the [try] block. *)
Lemma process_eq index name email kwargs s :
  process L Wd args sender_email raw_subject raw_body total
    index name email kwargs s =
  match formataddr L (name, email) with
  | inl e => ([], s, inl e)
  | inr recipient =>
      match render L raw_subject
              (bind_recipient name email recipient kwargs) with
      | inl e =>
          ([EPrint L162 (progress_line index total recipient)], s, inl e)
      | inr subject =>
          match render L raw_body
                  (bind_recipient name email recipient kwargs) with
          | inl e =>
              ([EPrint L162 (progress_line index total recipient)], s,
               inl e)
          | inr body =>
              match rbind (build_message (args_sender args) recipient
                             subject body) (as_string L) with
              | inl e =>
                  ([EPrint L162 (progress_line index total recipient)], s,
                   inl e)
              | inr message =>
                  match hand_over Wd args sender_email recipient message s
                  with
                  | (t, s1, r) =>
                      (EPrint L162 (progress_line index total recipient)
                         :: t, s1,
                       rmap (fun _ =>
                               bind_recipient name email recipient kwargs)
                         r)
                  end
              end
          end
      end
  end.
Proof.
  unfold process, hand_over, bind_recipient.
  unfold bind at 1. unfold lift at 1.
  destruct (formataddr L (name, email)) as [e|rcp]; [reflexivity|].
  unfold bind at 1. unfold lift at 1.
  rewrite format_progress.
  unfold bind at 1. unfold print_end at 1, emit at 1.
  rewrite append_nil_r.
  unfold bind at 1. unfold lift at 1.
  destruct (render L raw_subject _) as [e|subject]; [reflexivity|].
  unfold bind at 1. unfold lift at 1.
  destruct (render L raw_body _) as [e|body]; [reflexivity|].
  unfold bind at 1. unfold lift at 1.
  rewrite build_message_eq. cbn [rbind].
  unfold bind at 1. unfold lift at 1.
  destruct (as_string L _) as [e|msg]; [reflexivity|].
  unfold bind at 1.
  match goal with
  | |- context [ (if args_test args then ?a else ?b) s ] =>
      destruct ((if args_test args then a else b) s) as [[t s1] [e|[]]]
  end; [reflexivity|].
  unfold ret. cbn [app rmap]. by rewrite app_nil_r.
Qed.

End Row.

(** ** The entries of [kwargs] *)

Lemma dom_bind_recipient name email rcp (kwargs : gmap string string) :
  dom (bind_recipient name email rcp kwargs)
  = {["recipient"; "email"; "name"]} ∪ dom kwargs.
Proof.
  unfold bind_recipient. rewrite !dom_insert_L. set_solver.
Qed.

Lemma bind_recipient_keeps name email rcp (kwargs : gmap string string) k :
  k ∈ sender_keys ->
  bind_recipient name email rcp kwargs !! k = kwargs !! k.
Proof.
  unfold sender_keys, bind_recipient. intros Hk.
  assert (k = "sender_name" \/ k = "sender_email" \/ k = "sender")
    as [-> | [-> | ->]] by set_solver; by rewrite !lookup_insert_ne.
Qed.

Lemma kwargs_after_row_spec L (kwargs : gmap string string) line :
  dom (kwargs_after_row L kwargs line)
    ⊆ {["recipient"; "email"; "name"]} ∪ dom kwargs
  /\ forall k, k ∈ sender_keys ->
               kwargs_after_row L kwargs line !! k = kwargs !! k.
Proof.
  destruct line as [|name [|email [|c l]]]; cbn [kwargs_after_row];
    try (split; [set_solver|done]).
  destruct (formataddr L (name, email)) as [e|rcp]; [split; [set_solver|done]|].
  split; [by rewrite dom_bind_recipient|].
  intros k Hk. by apply bind_recipient_keeps.
Qed.

(** Rows add nothing to [kwargs] but [name], [email] and [recipient], and
    leave the sender entries as they are. *)
Lemma kwargs_after_spec L rows (kwargs : gmap string string) :
  dom (kwargs_after L rows kwargs)
    ⊆ {["recipient"; "email"; "name"]} ∪ dom kwargs
  /\ forall k, k ∈ sender_keys ->
               kwargs_after L rows kwargs !! k = kwargs !! k.
Proof.
  revert kwargs. induction rows as [|line rows IH]; intros kw.
  - split; [set_solver|done].
  - cbn [kwargs_after fold_left].
    fold (kwargs_after L rows (kwargs_after_row L kw line)).
    destruct (IH (kwargs_after_row L kw line)) as [Hd Hk].
    destruct (kwargs_after_row_spec L kw line) as [Hd1 Hk1].
    split; [set_solver|]. intros k Hin. by rewrite Hk, Hk1.
Qed.

(** What lines 135-141 leave in [kwargs]. *)
Lemma sender_kwargs_spec L args (kwargs : gmap string string) :
  sender_kwargs L args = inr kwargs ->
  dom kwargs = sender_keys
  /\ kwargs !! "sender_name" = Some (fst (parseaddr L (args_sender args)))
  /\ kwargs !! "sender_email" = Some (snd (parseaddr L (args_sender args)))
  /\ inr (kwargs !! "sender")
     = rmap Some (formataddr L (parseaddr L (args_sender args))).
Proof.
  unfold sender_kwargs.
  destruct (parseaddr L (args_sender args)) as [sender_name sender_email].
  destruct (formataddr L (sender_name, sender_email)) as [e|sender];
    [discriminate|].
  cbn [rbind fst snd rmap]. intros [= <-].
  split_and!; [|by simplify_map_eq|by simplify_map_eq|by simplify_map_eq].
  rewrite !dom_insert_L, dom_empty_L. unfold sender_keys. set_solver.
Qed.

(** The context of a record row, whatever rows came before it: the six
    keys, the row's own values and the sender entries of lines 135-141. *)
Lemma row_context L args rows name email rcp (kwargs : gmap string string) :
  sender_kwargs L args = inr kwargs ->
  let K := bind_recipient name email rcp (kwargs_after L rows kwargs) in
  dom K = context_keys
  /\ K !! "name" = Some name /\ K !! "email" = Some email
  /\ K !! "recipient" = Some rcp
  /\ forall k, k ∈ sender_keys -> K !! k = kwargs !! k.
Proof.
  intros Hkw K. apply sender_kwargs_spec in Hkw as (Hdom & _).
  destruct (kwargs_after_spec L rows kwargs) as [Hd Hk].
  split_and!.
  - unfold K. rewrite dom_bind_recipient.
    apply set_eq. intros k. split.
    + intros [Hk1 | Hk2]%elem_of_union.
      * unfold context_keys. set_solver.
      * apply Hd in Hk2. rewrite Hdom in Hk2.
        unfold context_keys, sender_keys in *. set_solver.
    + intros Hin.
      assert (k ∈ ({["recipient"; "email"; "name"]} : gset string)
              \/ k ∈ sender_keys) as [?|Hs]
        by (unfold context_keys, sender_keys in *; set_solver);
        [set_solver|].
      apply elem_of_union_r, elem_of_dom.
      rewrite (Hk k Hs). apply elem_of_dom. by rewrite Hdom.
  - unfold K, bind_recipient. by simplify_map_eq.
  - unfold K, bind_recipient. by simplify_map_eq.
  - unfold K, bind_recipient. by simplify_map_eq.
  - intros k Hin. unfold K. rewrite bind_recipient_keeps by done.
    by apply Hk.
Qed.

(** ** Rendering placeholder templates *)




(** ** Projections of a trace *)

Lemma printed_app l t1 t2 : printed l (t1 ++ t2) = printed l t1 ++ printed l t2.
Proof. apply omap_app. Qed.

(** ** Where the [SMTP] objects are created *)

Lemma announced_weaken b t : announced false t = true -> announced b t = true.
Proof.
  destruct t as [|[l ?| | | | | | |] t]; cbn [announced]; try done.
Qed.

Lemma announced_app b t1 t2 :
  announced b t1 = true -> announced false t2 = true ->
  announced b (t1 ++ t2) = true.
Proof.
  intros H1 H2. revert b H1.
  induction t1 as [|ev t1 IH]; intros b H1.
  - by apply announced_weaken.
  - destruct ev as [l ?| | | | | | |]; cbn [app announced] in *;
      try (by apply IH).
    + destruct l; by apply IH.
    + apply andb_true_iff in H1 as [-> H1]. by rewrite IH.
Qed.

(** A run up to the loop: either it raised in lines 129-149, or it is the
    prelude followed by the loop over the rows of the names file. *)
Lemma run_cases L Wd args w tr s r :
  run L Wd args w = (tr, s, r) ->
  (Forall (fun ev => is_prelude ev = true) tr /\ exists e, r = inl e)
  \/ exists a kwargs raw_subject raw_body rows t0 s0 t1,
       same_options args a
       /\ sender_kwargs L args = inr kwargs
       /\ compile_templates L args = inr (raw_subject, raw_body)
       /\ reader L (args_names args) = inr rows
       /\ Forall (fun ev => is_prelude ev = true) t0
       /\ sessions s0 = 0
       /\ loop L Wd a (snd (parseaddr L (args_sender args)))
            raw_subject raw_body (length rows) 0 rows kwargs s0 = (t1, s, r)
       /\ tr = t0 ++ t1.
Proof.
  unfold run. rewrite main_eq.
  destruct (prompt_credentials Wd args (mkSt w 0)) as [[t0 s0] r0] eqn:Hp.
  apply prompt_credentials_spec in Hp as (Hpre & Hs0 & Hopt).
  cbn [sessions] in Hs0.
  destruct r0 as [e|a]; [intros [= <- <- <-]; left; eauto|].
  pose proof (Hopt a eq_refl) as Hsame.
  destruct Hsame as (Hnames & Hmsg & Hhtml & Hsender & Hrest).
  rewrite <- (sender_kwargs_ext L args a Hsender).
  rewrite <- (compile_templates_ext L args a Hmsg Hhtml), <- Hnames,
    <- Hsender.
  destruct (sender_kwargs L args) as [e|kwargs];
    [intros [= <- <- <-]; left; eauto|].
  destruct (compile_templates L args) as [e|[tS tB]];
    [intros [= <- <- <-]; left; eauto|].
  destruct (reader L (args_names args)) as [e|rows];
    [intros [= <- <- <-]; left; eauto|].
  destruct (loop _ _ _ _ _ _ _ _ _ _ s0) as [[t1 s1] r1] eqn:Hl.
  intros [= <- <- <-]. right.
  exists a, kwargs, tS, tB, rows, t0, s0, t1.
  split_and!; done.
Qed.

(** The prelude touches neither the SMTP server nor lines 156-189. *)
Lemma prelude_quiet t :
  Forall (fun ev => is_prelude ev = true) t ->
  connects t = [] /\ sends t = [] /\ upgrades t = [] /\ logins t = []
  /\ (forall l, l <> L130 -> printed l t = [])
  /\ forall b, announced b t = true.
Proof.
  induction 1 as [|ev t Hev _ (Hc & Hs & Hu & Hg & Hp & Ha)].
  - split_and!; done.
  - destruct ev as [l ?| | | | | | |]; try discriminate.
    + destruct l; try discriminate.
      split_and!; [done|done|done|done| |intros b; apply Ha].
      intros l Hl. destruct l; try done; by apply Hp.
    + split_and!; [done|done|done|done|done|intros b; apply Ha].
    + split_and!; [done|done|done|done|done|intros b; apply Ha].
Qed.

Section Sessions.

Context (L : Library) (Wd : World).
Context (args : Args) (sender_email : string)
        (raw_subject raw_body : Template L) (total : nat).

Implicit Types (s : st Wd) (kwargs : gmap string string).

(** A [try] block that does not raise has made every call of lines
    178-187. *)
Lemma transmit_returns recipient message s t s1 :
  transmit Wd args sender_email recipient message s = (t, s1, inr tt) ->
  t = [EConnect (sessions s) (args_hostname args) (args_port args)]
      ++ (if args_tls args
          then [EStartTLS (sessions s);
                ELogin (sessions s) (args_username args) (args_password args)]
          else [])
      ++ [ESendMail (sessions s) sender_email recipient message;
          EPrint L186 ("OK" +:+ Py.NL);
          ESleep (args_interval args)].
Proof.
  unfold transmit, bind, SMTP, starttls, login, sendmail, print, print_end,
    sleep, emit, ret.
  destruct (w_connect Wd _ _ (world s)) as [w1 [e|[]]]; cbn [rmap];
    [discriminate|].
  destruct (args_tls args).
  - cbn [world sessions].
    destruct (w_starttls Wd _ w1) as [w2 [e|[]]]; [discriminate|].
    cbn [world sessions].
    destruct (w_login Wd _ _ _ w2) as [w3 [e|[]]]; [discriminate|].
    cbn [world sessions].
    destruct (w_sendmail Wd _ _ _ _ w3) as [w4 [e|[]]]; [discriminate|].
    cbn [world sessions]. destruct (w_sleep Wd _ w4) as [w5 [e|[]]];
      [discriminate|]. by intros [= <- _].
  - cbn [world sessions].
    destruct (w_sendmail Wd _ _ _ _ w1) as [w4 [e|[]]]; [discriminate|].
    cbn [world sessions]. destruct (w_sleep Wd _ w4) as [w5 [e|[]]];
      [discriminate|]. by intros [= <- _].
Qed.

Lemma all_used_app t1 t2 :
  all_used args t1 -> all_used args t2 -> all_used args (t1 ++ t2).
Proof.
  unfold all_used, sends, connects, upgrades, logins.
  intros H1 H2. rewrite printed_app, !omap_app.
  intros [Hp1 Hp2]%app_eq_nil.
  destruct (H1 Hp1) as [-> Ht1], (H2 Hp2) as [-> Ht2].
  split; [done|]. intros Htls.
  destruct (Ht1 Htls) as [-> ->], (Ht2 Htls) as [-> ->]. done.
Qed.

Lemma hand_over_sessions recipient message s t s1 r :
  hand_over Wd args sender_email recipient message s = (t, s1, r) ->
  announced true t = true /\ all_used args t.
Proof.
  destruct (args_test args) eqn:Ht.
  - rewrite hand_over_test by done. intros [= <- <- <-].
    split; [done|]. by intros _.
  - rewrite hand_over_live by done.
    destruct (transmit _ _ _ _ _ s) as [[t2 s2] r2] eqn:Htr.
    intros [= <- <- <-]. split.
    + pose proof (transmit_cases Wd args sender_email _ _ _ _ _ _ Htr)
        as Hcases.
      cbn zeta in Hcases.
      assert (announced true t2 = true) as Ha.
      { destruct (args_tls args); cbn [In] in Hcases;
          repeat (destruct Hcases as [<- | Hcases]; [done|]);
          destruct Hcases. }
      destruct r2 as [e|[]]; cbn [handled]; [|done].
      by apply announced_app.
    + destruct r2 as [e|[]]; cbn [handled].
      * intros Hp. rewrite printed_app in Hp.
        by apply app_eq_nil in Hp as [_ Hp].
      * apply transmit_returns in Htr as ->. intros _.
        by destruct (args_tls args).
Qed.

Lemma iteration_announced index line kwargs s t s1 r :
  iteration L Wd args sender_email raw_subject raw_body total
    index line kwargs s = (t, s1, r) ->
  announced false t = true /\ all_used args t.
Proof.
  destruct (two_fields line) eqn:Htwo.
  - destruct line as [|name [|email [|c l]]]; try discriminate.
    cbn [iteration]. rewrite process_eq.
    destruct (formataddr L (name, email)) as [e|rcp];
      [by intros [= <- <- <-]|].
    destruct (render L raw_subject _) as [e|subject];
      [by intros [= <- <- <-]|].
    destruct (render L raw_body _) as [e|body];
      [by intros [= <- <- <-]|].
    destruct (rbind _ _) as [e|message]; [by intros [= <- <- <-]|].
    destruct (hand_over _ _ _ _ _ s) as [[t2 s2] r2] eqn:Hh.
    apply hand_over_sessions in Hh as [Ha Hu].
    intros [= <- <- <-]. split; [done|].
    by apply (all_used_app [EPrint L162 _] t2).
  - destruct line as [|a l].
    + rewrite iteration_blank. by intros [= <- <- <-].
    + rewrite iteration_malformed by done. by intros [= <- <- <-].
Qed.

Lemma loop_announced index rows kwargs s t s1 r :
  loop L Wd args sender_email raw_subject raw_body total
    index rows kwargs s = (t, s1, r) ->
  announced false t = true /\ all_used args t.
Proof.
  revert index kwargs s t s1 r.
  induction rows as [|line rows IH]; intros index kwargs s t s1 r.
  - by intros [= <- <- <-].
  - rewrite loop_cons.
    destruct (iteration _ _ _ _ _ _ _ _ _ _ s) as [[t1 s2] r1] eqn:Hit.
    apply iteration_announced in Hit as [Ha1 Hu1].
    destruct r1 as [e|kw]; [by intros [= <- <- <-]|].
    destruct (loop _ _ _ _ _ _ _ _ _ _ s2) as [[t2 s3] r2] eqn:Hl.
    apply IH in Hl as [Ha2 Hu2]. intros [= <- <- <-].
    split; [by apply announced_app|by apply all_used_app].
Qed.

End Sessions.

(** * The claims *)

(** ** Sessions (C1) *)

(** C1, as the program has it: every record row of a live run calls
    [SMTP] for an object of its own (a new connection attempt), directly
    after printing the row's progress text.  The objects of a run are
    numbered 0, 1, 2, ... in the order of these calls; [sendmail] is called on each of them at most once and
    in that order, so no object serves two recipients.  Under [--tls],
    [starttls] and [login] are called anew on the objects: [sendmail] is
    only called on an object that was logged in on, and [login] only on
    one that was upgraded; without [--tls] neither is ever called.  When
    the run prints no error text, every object it created was used for a
    [sendmail], after [starttls] and [login] under [--tls].  A dry run
    creates no object, and a live run that returns has created exactly
    one per two-field row of the names file. *)
Theorem one_session_per_record L Wd args w tr s r :
  run L Wd args w = (tr, s, r) ->
  connects tr = seq 0 (length (connects tr))
  /\ sends tr `sublist_of` connects tr
  /\ announced false tr = true
  /\ (args_tls args = true ->
      sends tr `sublist_of` logins tr /\ logins tr `sublist_of` upgrades tr
      /\ upgrades tr `sublist_of` connects tr)
  /\ (args_tls args = false -> upgrades tr = [] /\ logins tr = [])
  /\ (printed L189 tr = [] ->
      sends tr = connects tr
      /\ (args_tls args = true ->
          upgrades tr = connects tr /\ logins tr = connects tr))
  /\ (args_test args = true -> connects tr = [])
  /\ (args_test args = false -> r = inr tt ->
      forall rows, reader L (args_names args) = inr rows ->
                   length (connects tr) = count_records rows).
Proof.
  intros Hrun.
  destruct (run_cases L Wd args w tr s r Hrun)
    as [[Hpre [e ->]]
       | (a & kwargs & tS & tB & rows & t0 & s0 & t1 & Hsame & _ & _
          & Hrows & Hpre & Hs0 & Hl & ->)].
  { destruct (prelude_quiet tr Hpre) as (-> & -> & -> & -> & Hp & Ha).
    split_and!; try done. }
  destruct (prelude_quiet t0 Hpre) as (Hc0 & Hsd0 & Hu0 & Hg0 & Hp0 & Ha0).
  destruct Hsame as (_ & _ & _ & _ & _ & _ & _ & Htls & Htest).
  pose proof (loop_sessions _ _ _ _ _ _ _ _ _ _ _ _ _ _ Hl)
    as (n & Hc & Hs & _ & Ht & Hlive).
  pose proof (disciplined_loop _ _ _ _ _ _ _ _ _ _ _ _ _ _ Hl)
    as (Hoff & Hon & _).
  pose proof (loop_announced _ _ _ _ _ _ _ _ _ _ _ _ _ _ Hl) as [Ha Hused].
  rewrite Hs0 in Hc. rewrite <- Htest in Ht, Hlive.
  rewrite <- Htls in Hoff, Hon. unfold all_used in Hused.
  rewrite <- Htls in Hused.
  rewrite printed_app, (Hp0 L189) by done.
  unfold connects, sends, upgrades, logins in *.
  rewrite !omap_app, Hc0, Hsd0, Hu0, Hg0, Hc, !app_nil_l, length_seq.
  rewrite Hc in Hs, Hon, Hused.
  split_and!; try done.
  - by apply announced_app.
  - intros H. by rewrite (Ht H).
  - intros H Hr rows' Hrows'. rewrite Hrows in Hrows'.
    injection Hrows' as <-. by apply Hlive.
Qed.

Lemma one_session_per_record_witness :
  exists tr s,
    run pylib scripted Ex.tls_two [] = (tr, s, inr tt)
    /\ connects tr = [0; 1]
    /\ upgrades tr = [0; 1] /\ logins tr = [0; 1] /\ sends tr = [0; 1]
    /\ announced false tr = true.
Proof.
  eexists _, _. split; [vm_compute; reflexivity|].
  edestruct (one_session_per_record pylib scripted Ex.tls_two [])
    as (Hseq & _ & Ha & _ & _ & Hused & _ & Hlive);
    [vm_compute; reflexivity|].
  destruct (Hused ltac:(vm_compute; reflexivity)) as (Hs & Htls).
  destruct (Htls eq_refl) as (Hu & Hg).
  specialize (Hlive eq_refl eq_refl _ ltac:(vm_compute; reflexivity)).
  rewrite Hu, Hg, Hs.
  split_and!; [rewrite Hseq, Hlive; vm_compute; reflexivity..|exact Ha].
Defined.

(** C1 as the spec words it fails: a live run over two recipients creates
    two [SMTP] objects and sends once on each; with [--tls] it also
    upgrades and logs in on each of the two. *)
Lemma single_session_counterexample :
  connects (Ex.trace_of (run pylib scripted Ex.live_two [])) = [0; 1]
  /\ sends (Ex.trace_of (run pylib scripted Ex.live_two [])) = [0; 1]
  /\ upgrades (Ex.trace_of (run pylib scripted Ex.tls_two [])) = [0; 1]
  /\ logins (Ex.trace_of (run pylib scripted Ex.tls_two [])) = [0; 1]
  /\ ~ Spec.single_session (Ex.trace_of (run pylib scripted Ex.live_two [])).
Proof.
  split_and!; [by vm_compute..|].
  intros (sid & Hc & _). vm_compute in Hc. discriminate.
Qed.

(** ** Failures in the [try] block (C2, C3) *)

Section Failures.

Context (L : Library) (Wd : World).
Context (args : Args) (sender_email : string)
        (raw_subject raw_body : Template L) (total : nat).

Implicit Types (s : st Wd) (kwargs : gmap string string).

Abbreviation loop' :=
  (loop L Wd args sender_email raw_subject raw_body total).
Abbreviation outgoing' := (outgoing L args raw_subject raw_body total).

Lemma outgoing_recipient index name email kwargs rcp prog msg :
  outgoing' index name email kwargs = inr (rcp, prog, msg) ->
  formataddr L (name, email) = inr rcp
  /\ prog = progress_line index total rcp.
Proof.
  unfold outgoing.
  destruct (formataddr L (name, email)) as [e|r]; [discriminate|].
  cbn [rbind].
  destruct (render L raw_subject _); [discriminate|]. cbn [rbind].
  destruct (render L raw_body _); [discriminate|]. cbn [rbind].
  rewrite build_message_eq. cbn [rbind].
  destruct (as_string L _); [discriminate|]. by intros [= -> <- _].
Qed.

Lemma kwargs_after_snoc pre name email kwargs rcp :
  formataddr L (name, email) = inr rcp ->
  kwargs_after L (pre ++ [[name; email]]) kwargs
  = bind_recipient name email rcp (kwargs_after L pre kwargs).
Proof.
  intros H. unfold kwargs_after. rewrite fold_left_app.
  cbn [fold_left kwargs_after_row]. by rewrite H.
Qed.

(** A record row reached by the loop: its progress line, then whatever
    the hand-over does, then the rest of the rows, always. *)
Lemma loop_row index pre name email post kwargs s t1 s1 rcp prog msg :
  loop' index pre kwargs s = (t1, s1, inr tt) ->
  outgoing' (index + length pre) name email (kwargs_after L pre kwargs)
    = inr (rcp, prog, msg) ->
  loop' index (pre ++ [name; email] :: post) kwargs s =
  match hand_over Wd args sender_email rcp msg s1 with
  | (t2, s2, _) =>
      match loop' (S (index + length pre)) post
              (kwargs_after L (pre ++ [[name; email]]) kwargs) s2
      with
      | (t3, s3, r) => (t1 ++ EPrint L162 prog :: t2 ++ t3, s3, r)
      end
  end.
Proof.
  intros Hpre Hout. rewrite loop_app, Hpre, loop_cons.
  cbn [iteration]. rewrite (process_outgoing _ _ _ _ _ _ _ _ _ _ _ _ _ _ _ Hout).
  destruct (outgoing_recipient _ _ _ _ _ _ _ Hout) as [Hf _].
  rewrite (kwargs_after_snoc _ _ _ _ _ Hf).
  destruct (hand_over_returns Wd args sender_email rcp msg s1)
    as (t2 & s2 & ->).
  cbn [rmap].
  by destruct (loop' (S (index + length pre)) post _ s2) as [[t3 s3] r].
Qed.

(** The [try] block when the [SMTP] constructor raises. *)
Lemma transmit_connect_fails recipient message s w2 e :
  w_connect Wd (args_hostname args) (args_port args) (world s)
    = (w2, inl e) ->
  transmit Wd args sender_email recipient message s
  = ([EConnect (sessions s) (args_hostname args) (args_port args)],
     mkSt w2 (S (sessions s)), inl e).
Proof. unfold transmit, bind, SMTP. by intros ->. Qed.

(** The [try] block under [--tls] when [login] raises. *)
Lemma transmit_login_fails recipient message s w2 w3 w4 e :
  args_tls args = true ->
  w_connect Wd (args_hostname args) (args_port args) (world s)
    = (w2, inr tt) ->
  w_starttls Wd (sessions s) w2 = (w3, inr tt) ->
  w_login Wd (sessions s) (args_username args) (args_password args) w3
    = (w4, inl e) ->
  transmit Wd args sender_email recipient message s
  = ([EConnect (sessions s) (args_hostname args) (args_port args);
      EStartTLS (sessions s);
      ELogin (sessions s) (args_username args) (args_password args)],
     mkSt w4 (S (sessions s)), inl e).
Proof.
  unfold transmit, bind, SMTP, starttls, login.
  intros -> ->. cbn [rmap world sessions]. intros ->.
  cbn [world sessions]. by intros ->.
Qed.

End Failures.

(** C3.  In a live run, when the [try] block of a record row raises [e]
    (the rows before it having been processed), the exception is caught:
    the row's events are followed by the printed text of [e], and the loop
    goes on with the next row, at the next index, with the [kwargs] every
    processed row leaves behind (a function of the rows alone, so what the
    later rows render does not depend on the failure).  The outcome of the
    loop is the outcome of the remaining rows; with no rows left it is a
    normal return. *)
Theorem send_failure_is_isolated
    L Wd args sender_email (raw_subject raw_body : Template L) total
    index pre name email post kwargs (s s1 s2 : st Wd) t1 t2 rcp prog msg e :
  args_test args = false ->
  loop L Wd args sender_email raw_subject raw_body total index pre kwargs s
    = (t1, s1, inr tt) ->
  outgoing L args raw_subject raw_body total (index + length pre) name email
    (kwargs_after L pre kwargs) = inr (rcp, prog, msg) ->
  transmit Wd args sender_email rcp msg s1 = (t2, s2, inl e) ->
  loop L Wd args sender_email raw_subject raw_body total index
    (pre ++ [name; email] :: post) kwargs s =
  match loop L Wd args sender_email raw_subject raw_body total
          (S (index + length pre)) post
          (kwargs_after L (pre ++ [[name; email]]) kwargs) s2
  with
  | (t3, s3, r) =>
      (t1 ++ EPrint L162 prog :: t2
          ++ EPrint L189 (exn_text e +:+ Py.NL) :: t3, s3, r)
  end
  /\ snd (loop L Wd args sender_email raw_subject raw_body total index
            (pre ++ [[name; email]]) kwargs s) = inr tt.
Proof.
  intros Htest Hpre Hout Htr.
  assert (forall post,
    loop L Wd args sender_email raw_subject raw_body total index
      (pre ++ [name; email] :: post) kwargs s =
    match loop L Wd args sender_email raw_subject raw_body total
            (S (index + length pre)) post
            (kwargs_after L (pre ++ [[name; email]]) kwargs) s2
    with
    | (t3, s3, r) =>
        (t1 ++ EPrint L162 prog :: t2
            ++ EPrint L189 (exn_text e +:+ Py.NL) :: t3, s3, r)
    end) as Hloop.
  { intros post'. rewrite (loop_row _ _ _ _ _ _ _ _ _ _ _ _ _ _ _ _ _ _ _ Hpre Hout).
    rewrite hand_over_live, Htr by done. cbn [handled].
    destruct (loop _ _ _ _ _ _ _ _ post' _ s2) as [[t3 s3] r].
    by rewrite <- app_assoc. }
  split; [apply Hloop|]. by rewrite Hloop.
Qed.

Lemma send_failure_is_isolated_witness :
  exists tr s,
    loop pylib scripted Ex.live_two "me@localhost"
      Ex.hello_subject Ex.hello_body 3 0 Ex.three_rows Ex.sender_kw
      (@mkSt scripted [inr tt; inr tt; inr tt; refused "Mailbox unavailable"] 0)
    = (tr, s, inr tt)
    /\ printed L189 tr = ["Mailbox unavailable" +:+ Py.NL]
    /\ sends tr = [0; 1; 2].
Proof.
  edestruct (send_failure_is_isolated pylib scripted Ex.live_two
               "me@localhost" Ex.hello_subject Ex.hello_body 3 0
               [["Alice"; "alice@example.com"]] "Bob" "bob@example.com"
               [["Dan"; "dan@example.com"]] Ex.sender_kw
               (@mkSt scripted [inr tt; inr tt; inr tt; refused "Mailbox unavailable"]
                  0))
    as [H _];
    [reflexivity | vm_compute; reflexivity | vm_compute; reflexivity
    | vm_compute; reflexivity | ].
  change Ex.three_rows
    with ([["Alice"; "alice@example.com"]]
            ++ ["Bob"; "bob@example.com"] :: [["Dan"; "dan@example.com"]]).
  rewrite H. vm_compute. eexists _, _. split_and!; reflexivity.
Defined.

(** C2, as the program has it: the [SMTP] constructor, [starttls] and
    [login] are called inside the [try] block of each record row, so in a
    live run a connection failure, or under [--tls] a login failure, is
    caught like any other: its text is printed, nothing is sent to that
    recipient, and the loop goes on with the next row. *)
Theorem connection_failure_is_caught
    L Wd args sender_email (raw_subject raw_body : Template L) total
    index pre name email post kwargs (s s1 : st Wd) t1 rcp prog msg :
  args_test args = false ->
  loop L Wd args sender_email raw_subject raw_body total index pre kwargs s
    = (t1, s1, inr tt) ->
  outgoing L args raw_subject raw_body total (index + length pre) name email
    (kwargs_after L pre kwargs) = inr (rcp, prog, msg) ->
  (forall w2 e,
     w_connect Wd (args_hostname args) (args_port args) (world s1)
       = (w2, inl e) ->
     loop L Wd args sender_email raw_subject raw_body total index
       (pre ++ [name; email] :: post) kwargs s =
     match loop L Wd args sender_email raw_subject raw_body total
             (S (index + length pre)) post
             (kwargs_after L (pre ++ [[name; email]]) kwargs)
             (mkSt w2 (S (sessions s1)))
     with
     | (t3, s3, r) =>
         (t1 ++ [EPrint L162 prog;
                 EConnect (sessions s1) (args_hostname args) (args_port args);
                 EPrint L189 (exn_text e +:+ Py.NL)] ++ t3, s3, r)
     end)
  /\ (forall w2 w3 w4 e,
        args_tls args = true ->
        w_connect Wd (args_hostname args) (args_port args) (world s1)
          = (w2, inr tt) ->
        w_starttls Wd (sessions s1) w2 = (w3, inr tt) ->
        w_login Wd (sessions s1) (args_username args) (args_password args) w3
          = (w4, inl e) ->
        loop L Wd args sender_email raw_subject raw_body total index
          (pre ++ [name; email] :: post) kwargs s =
        match loop L Wd args sender_email raw_subject raw_body total
                (S (index + length pre)) post
                (kwargs_after L (pre ++ [[name; email]]) kwargs)
                (mkSt w4 (S (sessions s1)))
        with
        | (t3, s3, r) =>
            (t1 ++ [EPrint L162 prog;
                    EConnect (sessions s1) (args_hostname args)
                      (args_port args);
                    EStartTLS (sessions s1);
                    ELogin (sessions s1) (args_username args)
                      (args_password args);
                    EPrint L189 (exn_text e +:+ Py.NL)] ++ t3, s3, r)
        end).
Proof.
  intros Htest Hpre Hout. split.
  - intros w2 e Hc.
    rewrite (loop_row _ _ _ _ _ _ _ _ _ _ _ _ _ _ _ _ _ _ _ Hpre Hout).
    rewrite hand_over_live by done.
    rewrite (transmit_connect_fails _ _ _ _ _ _ _ _ Hc). cbn [handled].
    by destruct (loop _ _ _ _ _ _ _ _ post _ _) as [[t3 s3] r].
  - intros w2 w3 w4 e Htls Hc Hs Hl.
    rewrite (loop_row _ _ _ _ _ _ _ _ _ _ _ _ _ _ _ _ _ _ _ Hpre Hout).
    rewrite hand_over_live by done.
    rewrite (transmit_login_fails _ _ _ _ _ _ _ _ _ _ Htls Hc Hs Hl).
    cbn [handled].
    by destruct (loop _ _ _ _ _ _ _ _ post _ _) as [[t3 s3] r].
Qed.

Lemma connection_failure_is_caught_witness :
  exists tr s,
    loop pylib scripted Ex.live_two "me@localhost"
      Ex.hello_subject Ex.hello_body 3 0 Ex.three_rows Ex.sender_kw
      (@mkSt scripted [inr tt; inr tt; refused "Connection refused"] 0)
    = (tr, s, inr tt)
    /\ printed L189 tr = ["Connection refused" +:+ Py.NL]
    /\ sends tr = [0; 2].
Proof.
  edestruct (connection_failure_is_caught pylib scripted Ex.live_two
               "me@localhost" Ex.hello_subject Ex.hello_body 3 0
               [["Alice"; "alice@example.com"]] "Bob" "bob@example.com"
               [["Dan"; "dan@example.com"]] Ex.sender_kw
               (@mkSt scripted [inr tt; inr tt; refused "Connection refused"] 0))
    as [H _];
    [reflexivity | vm_compute; reflexivity | vm_compute; reflexivity | ].
  change Ex.three_rows
    with ([["Alice"; "alice@example.com"]]
            ++ ["Bob"; "bob@example.com"] :: [["Dan"; "dan@example.com"]]).
  rewrite (H [] (mkExn "OSError" "Connection refused") eq_refl).
  vm_compute. eexists _, _. split_and!; reflexivity.
Defined.

(** C2 as the spec words it fails: the server refuses the first
    connection, yet the run returns normally, prints the error and sends
    the second recipient's message on a second [SMTP] object. *)
Lemma connect_failure_counterexample :
  let r := run pylib scripted Ex.live_two [refused "Connection refused"] in
  Ex.outcome_of r = inr tt
  /\ printed L189 (Ex.trace_of r) = ["Connection refused" +:+ Py.NL]
  /\ connects (Ex.trace_of r) = [0; 1]
  /\ sends (Ex.trace_of r) = [1]
  /\ ~ Spec.connect_failure_is_fatal
         (mkExn "OSError" "Connection refused") (Ex.outcome_of r).
Proof.
  cbv zeta. split_and!; try (vm_compute; reflexivity).
  unfold Spec.connect_failure_is_fatal. vm_compute. discriminate.
Qed.

(** ** Rows of the names file (C5) *)




(** ** Dry runs (C6) *)

(** C6, as the program has it: a run with [--test] performs no SMTP
    operation, whatever happens; and when it returns, it has printed one
    serialized message per two-field row of the names file, in file
    order.  That number is [total] (the number of rows, which the progress
    lines show) less the blank and malformed rows. *)
Theorem dry_run_prints_each_record L Wd args w tr s r :
  args_test args = true ->
  run L Wd args w = (tr, s, r) ->
  Forall (fun ev => is_smtp ev = false) tr
  /\ (r = inr tt ->
      forall rows raw_subject raw_body kwargs,
        reader L (args_names args) = inr rows ->
        compile_templates L args = inr (raw_subject, raw_body) ->
        sender_kwargs L args = inr kwargs ->
        printed L175 tr
        = map (fun m => m +:+ Py.NL)
            (messages L args raw_subject raw_body (length rows) 0 rows kwargs)
        /\ length (printed L175 tr) = count_records rows
        /\ count_records rows <= length rows).
Proof.
  intros Htest. unfold run. rewrite main_eq.
  destruct (prompt_credentials Wd args (mkSt w 0)) as [[t0 s0] r0] eqn:Hp.
  apply prompt_credentials_spec in Hp as (Hpre & _ & Hopt).
  pose proof (prelude_no_smtp _ Hpre) as (_ & _ & Hn0).
  assert (printed L175 t0 = []) as Hp0.
  { clear -Hpre. induction Hpre as [|ev t Hev _ IH]; [done|].
    destruct ev as [[] ? | | | | | | |]; try discriminate; exact IH. }
  destruct r0 as [e|a].
  { intros [= <- <- <-]. split; [done|discriminate]. }
  destruct (Hopt a eq_refl)
    as (Hnames & Hmsg & Hhtml & Hsender & _ & _ & _ & _ & Hta).
  rewrite <- (sender_kwargs_ext L args a Hsender).
  rewrite <- (compile_templates_ext L args a Hmsg Hhtml), <- Hnames.
  destruct (sender_kwargs L args) as [e|kwargs].
  { intros [= <- <- <-]. split; [done|discriminate]. }
  destruct (compile_templates L args) as [e|[tS tB]].
  { intros [= <- <- <-]. split; [done|discriminate]. }
  destruct (reader L (args_names args)) as [e|rows].
  { intros [= <- <- <-]. split; [done|discriminate]. }
  destruct (loop _ _ _ _ _ _ _ _ _ _ s0) as [[t1 s1] r1] eqn:Hl.
  rewrite Htest in Hta.
  apply (loop_test L Wd a _ _ _ _ _ _ _ _ _ _ _ (eq_sym Hta)) in Hl
    as (_ & Hn1 & Hm).
  intros [= <- <- <-]. split; [by apply Forall_app|].
  intros Hr rows' tS' tB' kw' [= <-] [= <- <-] [= <-].
  destruct (Hm Hr) as [Hm1 Hm2].
  unfold printed in *. rewrite omap_app, Hp0, app_nil_l.
  rewrite Hm2, Hm1, (messages_ext L a args) by done.
  split_and!; [done|done|].
  unfold count_records. apply List.filter_length_le.
Qed.

Lemma dry_run_prints_each_record_witness :
  exists tr s,
    run pylib scripted Ex.dry_two [] = (tr, s, inr tt)
    /\ Forall (fun ev => is_smtp ev = false) tr
    /\ length (printed L175 tr) = 1.
Proof.
  eexists _, _. split; [vm_compute; reflexivity|].
  edestruct (dry_run_prints_each_record pylib scripted Ex.dry_two [])
    as [Hn Hm]; [reflexivity | vm_compute; reflexivity |].
  split; [exact Hn|].
  edestruct (Hm eq_refl) as (_ & -> & _);
    [vm_compute; reflexivity | vm_compute; reflexivity
    | vm_compute; reflexivity | reflexivity].
Defined.

(** C6 as the spec words it fails: a dry run can raise part of the way.
    Of three recipients the second has an address [formataddr] refuses;
    line 160 is outside any [try], so the run ends there with one
    printout for three recipients. *)
Lemma dry_run_raises_counterexample :
  reader pylib (args_names Ex.dry_three)
  = inr [["Alice"; "alice@example.com"];
         ["Rene"; "ren" +:+ String "233" "@example.com"];
         ["Bob"; "bob@example.com"]]
  /\ match Ex.outcome_of (run pylib scripted Ex.dry_three []) with
     | inl e => exn_class e = "UnicodeEncodeError"
     | inr _ => False
     end
  /\ length (printed L175 (Ex.trace_of (run pylib scripted Ex.dry_three [])))
     = 1
  /\ ~ Spec.one_printout_per_recipient
        [["Alice"; "alice@example.com"];
         ["Rene"; "ren" +:+ String "233" "@example.com"];
         ["Bob"; "bob@example.com"]]
        (Ex.trace_of (run pylib scripted Ex.dry_three [])).
Proof.
  split_and!; try (vm_compute; reflexivity).
  unfold Spec.one_printout_per_recipient. by vm_compute.
Qed.

(** ** The message (C7, C4) *)

(** C7, as the program has it: the message built for a recipient has
    exactly the five headers From, To, Subject, MIME-Version and
    Content-Type, in this order and with these values, and its payload is
    the rendered body inside the program's own page: doctype, an [html]
    element with [lang] set to [en], and [body], each on a line of its
    own, with a final newline.  The text a record row prints or sends is
    the serialization of that message, built from the row's rendered
    subject and body, the raw sender and the formatted recipient. *)
Theorem message_has_five_headers_and_page sender recipient subject body :
  build_message sender recipient subject body
  = inr {| headers :=
             [("From", sender); ("To", recipient); ("Subject", subject);
              ("MIME-Version", "1.0");
              ("Content-Type",
               "text/html; charset=" +:+ Py.DQ +:+ "utf-8" +:+ Py.DQ)];
           payload :=
             Some ("<!doctype html>" +:+ Py.NL +:+
                   "<html lang=" +:+ Py.DQ +:+ "en" +:+ Py.DQ +:+ ">"
                     +:+ Py.NL +:+
                   "<body>" +:+ Py.NL +:+
                   body +:+ Py.NL +:+
                   "</body>" +:+ Py.NL +:+
                   "</html>" +:+ Py.NL) |}
  /\ (forall L args (raw_subject raw_body : Template L) total index
             name email kwargs rcp prog msg,
        outgoing L args raw_subject raw_body total index name email kwargs
          = inr (rcp, prog, msg) ->
        exists subject body,
          render L raw_subject (bind_recipient name email rcp kwargs)
            = inr subject
          /\ render L raw_body (bind_recipient name email rcp kwargs)
             = inr body
          /\ as_string L
               {| headers := message_headers (args_sender args) rcp subject;
                  payload := Some (html_page body) |} = inr msg).
Proof.
  split; [reflexivity|].
  intros L args tS tB total index name email kwargs rcp prog msg.
  unfold outgoing.
  destruct (formataddr L (name, email)) as [e|r]; [discriminate|].
  cbn [rbind].
  destruct (render L tS _) as [e|subj] eqn:Hs; [discriminate|].
  cbn [rbind].
  destruct (render L tB _) as [e|bd] eqn:Hb; [discriminate|]. cbn [rbind].
  rewrite build_message_eq. cbn [rbind].
  destruct (as_string L _) as [e|m] eqn:Hm; [discriminate|].
  intros [= <- _ <-]. exists subj, bd. split_and!; [exact Hs|exact Hb|exact Hm].
Qed.

Lemma message_has_five_headers_and_page_witness :
  exists subject body,
    render pylib Ex.hello_subject
      (bind_recipient "Alice" "alice@example.com"
         "Alice <alice@example.com>" Ex.sender_kw) = inr subject
    /\ render pylib Ex.hello_body
         (bind_recipient "Alice" "alice@example.com"
            "Alice <alice@example.com>" Ex.sender_kw) = inr body
    /\ subject = "Hello Alice!"
    /\ body = "<p>Welcome, Alice.</p>".
Proof.
  destruct (message_has_five_headers_and_page "me" "you" "Hi" "x")
    as [_ H].
  edestruct (H pylib Ex.live_two Ex.hello_subject Ex.hello_body 2 0
               "Alice" "alice@example.com" Ex.sender_kw)
    as (subject & body & Hs & Hb & _); [vm_compute; reflexivity|].
  exists subject, body. split_and!; [exact Hs|exact Hb| |].
  - vm_compute in Hs. by injection Hs as <-.
  - vm_compute in Hb. by injection Hb as <-.
Defined.

(** C7 as the spec words it fails: the payload is not the body inside the
    one-line page the spec quotes. *)
Lemma html_page_counterexample :
  rmap payload (build_message "me" "you" "Hi" "x")
  <> inr (Some (Spec.html_page "x")).
Proof.
  vm_compute. discriminate.
Qed.

(** C4 fails on the program: line 166 puts the raw [--sender] string in
    the From header.  For a sender written [John Smith<john@smith.com>]
    the re-formatted address, which the templates get as [sender], has
    the space; the From header of every message, and of the message a dry
    run prints, has not. *)
Theorem from_header_is_the_raw_sender :
  rbind (sender_kwargs pylib Ex.tight_run) (fun kw => inr (kw !! "sender"))
  = inr (Some "John Smith <john@smith.com>")
  /\ (forall recipient subject body,
        rmap (fun m => head (headers m))
          (build_message Ex.tight_sender recipient subject body)
        = inr (Some ("From", "John Smith<john@smith.com>")))
  /\ printed L175 (Ex.trace_of (run pylib scripted Ex.tight_run []))
     = ["From: John Smith<john@smith.com>" +:+ Py.NL +:+
        "To: Alice <alice@example.com>" +:+ Py.NL +:+
        "Subject: Hello Alice!" +:+ Py.NL +:+
        "MIME-Version: 1.0" +:+ Py.NL +:+
        "Content-Type: text/html; charset=" +:+ Py.DQ +:+ "utf-8" +:+ Py.DQ
          +:+ Py.NL +:+ Py.NL +:+
        html_page "<p>Welcome, Alice.</p>" +:+ Py.NL].
Proof. split_and!; [by vm_compute|reflexivity|by vm_compute]. Qed.

(** ** Subject and body (C8, C10) *)

Lemma has_newline_cons c s :
  has_newline (String c s) = Ascii.eqb c Py.nl || has_newline s.
Proof.
  unfold has_newline. cbn [list_ascii_of_string existsb].
  by rewrite (Ascii.eqb_sym Py.nl c).
Qed.

(** [split('\n', 1)] on a text without newline gives the text alone. *)
Lemma split1_no_newline s :
  has_newline s = false -> Py.split1 Py.nl s = [s].
Proof.
  induction s as [|c s IH]; [done|].
  rewrite has_newline_cons. intros [Hc Hs]%orb_false_elim.
  cbn [Py.split1]. rewrite Hc, (IH Hs). done.
Qed.

(** [split('\n', 1)] cuts at the first newline. *)
Lemma split1_first_newline subject body :
  has_newline subject = false ->
  Py.split1 Py.nl (subject +:+ Py.NL +:+ body) = [subject; body].
Proof.
  induction subject as [|c s IH].
  - intros _. reflexivity.
  - rewrite has_newline_cons. intros [Hc Hs]%orb_false_elim.
    change (String c s +:+ Py.NL +:+ body)
      with (String c (s +:+ Py.NL +:+ body)).
    cbn [Py.split1]. rewrite Hc, (IH Hs). done.
Qed.

Lemma split1_shape s :
  (has_newline s = false /\ Py.split1 Py.nl s = [s])
  \/ (exists subject body,
        Py.split1 Py.nl s = [subject; body]
        /\ s = subject +:+ Py.NL +:+ body
        /\ has_newline subject = false).
Proof.
  induction s as [|c s IH]; [by left|].
  rewrite has_newline_cons. cbn [Py.split1].
  destruct (Ascii.eqb c Py.nl) eqn:Hc.
  - right. exists "", s. apply Ascii.eqb_eq in Hc as ->. done.
  - destruct IH as [[Hn ->] | (subject & body & -> & -> & Hn)].
    + left. by rewrite Hn.
    + right. exists (String c subject), body.
      rewrite has_newline_cons, Hc, Hn. done.
Qed.

(** C8.  With the subject line cut off at the first newline, the body
    template is compiled from the markdown conversion of the raw body when
    [--html] is absent, and from the raw body itself, unchanged, when it
    is present; so a run without [--html] compiles the same templates as
    a run with [--html] on the already converted body. *)
Theorem markdown_precedes_compilation L args subject raw_body :
  has_newline subject = false ->
  args_message args = subject +:+ Py.NL +:+ raw_body ->
  compile_templates L args
  = rbind (from_string L subject) (fun compiled_subject =>
    rbind (from_string L (if args_html args then raw_body
                          else markdown L raw_body)) (fun compiled_body =>
    inr (compiled_subject, compiled_body)))
  /\ compile_templates L
       (set_message false (subject +:+ Py.NL +:+ raw_body) args)
     = compile_templates L
         (set_message true (subject +:+ Py.NL +:+ markdown L raw_body) args).
Proof.
  intros Hs Hm. unfold compile_templates. cbn [args_message args_html set_message].
  rewrite Hm, !split1_first_newline by done. done.
Qed.

Lemma markdown_precedes_compilation_witness :
  compile_templates pylib Ex.live_two
  = inr ([Tpl.Lit "Hello "; Tpl.Var "name"; Tpl.Lit "!"],
         [Tpl.Lit "<p>Welcome, "; Tpl.Var "name"; Tpl.Lit ".</p>"]).
Proof.
  destruct (markdown_precedes_compilation pylib Ex.live_two
              "Hello {{ name }}!" "Welcome, {{ name }}."
              eq_refl eq_refl) as [-> _].
  vm_compute. reflexivity.
Defined.

Section Abort.

Context (L : Library) (Wd : World).

Lemma prompt_credentials_names names args (s : st Wd) :
  prompt_credentials Wd (set_names names args) s =
  match prompt_credentials Wd args s with
  | (t, s1, r) => (t, s1, rmap (set_names names) r)
  end.
Proof.
  destruct args as [nm msg h sd iv hn pt tls u pw tst].
  unfold prompt_credentials, bind, print, print_end, emit, input, getpass,
    ret, set_names, set_username, set_password.
  cbn. destruct tls; [|reflexivity].
  destruct (Py.falsy u); cbn.
  - destruct (w_input Wd _ (world s)) as [w1 [e|u1]]; [reflexivity|].
    cbn. destruct (Py.falsy pw); [|reflexivity].
    cbn. destruct (w_getpass Wd _ w1) as [w2 [e|p]]; reflexivity.
  - destruct (Py.falsy pw); [|reflexivity].
    cbn. destruct (w_getpass Wd _ (world s)) as [w2 [e|p]]; reflexivity.
Qed.

Lemma compile_templates_no_newline args :
  has_newline (args_message args) = false ->
  compile_templates L args
  = inl (ValueError "not enough values to unpack (expected 2, got 1)").
Proof.
  intros H. unfold compile_templates. by rewrite split1_no_newline.
Qed.

(** A run whose message has no newline: the prompts, then an exception
    from lines 135-143. *)
Lemma run_no_newline args w :
  has_newline (args_message args) = false ->
  run L Wd args w =
  match prompt_credentials Wd args (mkSt w 0) with
  | (t0, s0, inl e) => (t0, s0, inl e)
  | (t0, s0, inr a) =>
      match sender_kwargs L args with
      | inl e => (t0, s0, inl e)
      | inr _ =>
          (t0, s0,
           inl (ValueError
                  "not enough values to unpack (expected 2, got 1)"))
      end
  end.
Proof.
  intros H. unfold run. rewrite main_eq.
  destruct (prompt_credentials Wd args (mkSt w 0)) as [[t0 s0] [e|a]] eqn:Hp;
    [done|].
  apply prompt_credentials_spec in Hp as (_ & _ & Hopt).
  destruct (Hopt a eq_refl) as (_ & Hmsg & _ & Hsender & _).
  rewrite <- (sender_kwargs_ext L args a Hsender).
  destruct (sender_kwargs L args) as [e|kw]; [done|].
  rewrite compile_templates_no_newline; [done|by rewrite <- Hmsg].
Qed.

End Abort.

(** C10.  A message without any newline makes the run raise before the
    names file is read: only the banner and the prompts of lines 129-134
    can have happened, the names file has no influence on the run, and
    unless a prompt or the sender formatting raised first the exception is
    the [ValueError] of unpacking one part into two names.  A message with
    a newline is split at the first one: the subject template is compiled
    from the text before it, the body template from everything after it
    (converted first unless [--html]). *)
Theorem message_without_newline_aborts L Wd args w :
  (has_newline (args_message args) = false ->
   exists tr s e,
     run L Wd args w = (tr, s, inl e)
     /\ Forall (fun ev => is_prelude ev = true) tr
     /\ (forall names, run L Wd (set_names names args) w = run L Wd args w)
     /\ (forall t0 s0 a kwargs,
           prompt_credentials Wd args (mkSt w 0) = (t0, s0, inr a) ->
           sender_kwargs L args = inr kwargs ->
           e = ValueError "not enough values to unpack (expected 2, got 1)"))
  /\ (has_newline (args_message args) = true ->
      exists subject body,
        args_message args = subject +:+ Py.NL +:+ body
        /\ has_newline subject = false
        /\ compile_templates L args
           = rbind (from_string L subject) (fun compiled_subject =>
             rbind (from_string L (if args_html args then body
                                   else markdown L body))
               (fun compiled_body =>
             inr (compiled_subject, compiled_body)))).
Proof.
  split.
  2:{ intros H. destruct (split1_shape (args_message args))
        as [[Hn _] | (subject & body & Hsplit & Hm & Hn)]; [congruence|].
      exists subject, body. split_and!; [done|done|].
      unfold compile_templates. by rewrite Hsplit. }
  intros H.
  assert (forall names,
            run L Wd (set_names names args) w = run L Wd args w) as Hnames.
  { intros names. rewrite !run_no_newline by done.
    rewrite prompt_credentials_names.
    rewrite (sender_kwargs_ext L (set_names names args) args) by done.
    by destruct (prompt_credentials Wd args (mkSt w 0)) as [[t0 s0] [e|a]]. }
  pose proof (run_no_newline L Wd args w H) as Hrun.
  destruct (prompt_credentials Wd args (mkSt w 0)) as [[t0 s0] r0] eqn:Hp.
  pose proof (prompt_credentials_spec _ _ _ _ _ _ Hp) as (Hpre & _ & _).
  destruct r0 as [e|a].
  { exists t0, s0, e. split_and!; [done|done|done|]. intros; discriminate. }
  destruct (sender_kwargs L args) as [e|kw].
  { exists t0, s0, e. split_and!; [done|done|done|]. intros; discriminate. }
  eexists t0, s0, _. split_and!; [done|done|done|done].
Qed.

Lemma message_without_newline_aborts_witness :
  run pylib scripted Ex.one_line []
  = ([], @mkSt scripted [] 0,
     inl (ValueError "not enough values to unpack (expected 2, got 1)"))
  /\ compile_templates pylib Ex.live_two
     = inr (Ex.hello_subject, Ex.hello_body).
Proof.
  split.
  - destruct (proj1 (message_without_newline_aborts pylib scripted
                       Ex.one_line []) eq_refl)
      as (tr & s & e & Hrun & _ & _ & He).
    rewrite Hrun.
    rewrite (He [] (@mkSt scripted [] 0) Ex.one_line Ex.sender_kw
               eq_refl ltac:(vm_compute; reflexivity)) in Hrun |- *.
    vm_compute in Hrun. by injection Hrun as <- <-.
  - destruct (proj2 (message_without_newline_aborts pylib scripted
                       Ex.live_two []) eq_refl)
      as (subject & body & Hm & Hn & ->).
    assert (subject = "Hello {{ name }}!" /\ body = "Welcome, {{ name }}.")
      as [-> ->].
    { pose proof (split1_first_newline subject body Hn) as Hs.
      rewrite <- Hm in Hs. vm_compute in Hs. by injection Hs as <- <-. }
    vm_compute. reflexivity.
Defined.

(** ** Undefined template variables (C9) *)




(** * Further properties of the program *)

(** ** The template context (lines 135-141 and 158-161) *)

(** The sender entries are written once, before the loop; every record
    row then overwrites [name], [email] and [recipient].  So, whatever
    rows came before, a record row renders its subject and its body with
    one and the same context, which has exactly the six documented keys:
    the row's own name, email and formatted recipient, and the three
    sender entries of lines 135-141.  The loop over the rows up to and
    including such a row is the loop over the rows before it, the row's
    progress text, the two renders with that context, the serialization
    and the hand-over; the loop then goes on with that context. *)
Theorem context_has_the_six_keys
    L Wd args sender_email (raw_subject raw_body : Template L) total
    index pre name email post (kwargs : gmap string string)
    (s s1 : st Wd) t1 rcp :
  sender_kwargs L args = inr kwargs ->
  loop L Wd args sender_email raw_subject raw_body total index pre kwargs s
    = (t1, s1, inr tt) ->
  formataddr L (name, email) = inr rcp ->
  exists K : gmap string string,
    dom K = context_keys
    /\ K !! "name" = Some name /\ K !! "email" = Some email
    /\ K !! "recipient" = Some rcp
    /\ K !! "sender_name" = Some (fst (parseaddr L (args_sender args)))
    /\ K !! "sender_email" = Some (snd (parseaddr L (args_sender args)))
    /\ inr (K !! "sender")
       = rmap Some (formataddr L (parseaddr L (args_sender args)))
    /\ loop L Wd args sender_email raw_subject raw_body total index
         (pre ++ [name; email] :: post) kwargs s =
       let progress :=
         EPrint L162 (progress_line (index + length pre) total rcp) in
       match render L raw_subject K with
       | inl e => (t1 ++ [progress], s1, inl e)
       | inr subject =>
           match render L raw_body K with
           | inl e => (t1 ++ [progress], s1, inl e)
           | inr body =>
               match rbind (build_message (args_sender args) rcp subject
                              body) (as_string L) with
               | inl e => (t1 ++ [progress], s1, inl e)
               | inr message =>
                   match hand_over Wd args sender_email rcp message s1 with
                   | (t2, s2, _) =>
                       match
                         loop L Wd args sender_email raw_subject raw_body
                           total (S (index + length pre)) post K s2
                       with
                       | (t3, s3, r) => (t1 ++ progress :: t2 ++ t3, s3, r)
                       end
                   end
               end
           end
       end.
Proof.
  intros Hkw Hpre Hrcp.
  exists (bind_recipient name email rcp (kwargs_after L pre kwargs)).
  destruct (row_context L args pre name email rcp kwargs Hkw)
    as (Hdom & Hn & He & Hr & Hs).
  pose proof (sender_kwargs_spec L args kwargs Hkw) as (_ & H1 & H2 & H3).
  split_and!; try done.
  - rewrite Hs; [done|]. unfold sender_keys. set_solver.
  - rewrite Hs; [done|]. unfold sender_keys. set_solver.
  - rewrite Hs; [done|]. unfold sender_keys. set_solver.
  - rewrite loop_app, Hpre, loop_cons. cbn [iteration].
    rewrite process_eq, Hrcp. cbn zeta.
    destruct (render L raw_subject _) as [e|subject]; [done|].
    destruct (render L raw_body _) as [e|body]; [done|].
    destruct (rbind _ _) as [e|message]; [done|].
    destruct (hand_over_returns Wd args sender_email rcp message s1)
      as (t2 & s2 & ->). cbn [rmap].
    destruct (loop _ _ _ _ _ _ _ _ _ _ s2) as [[t3 s3] r]. done.
Qed.

Lemma context_has_the_six_keys_witness :
  exists K : gmap string string,
    dom K = context_keys
    /\ K !! "name" = Some "Bob"
    /\ K !! "sender_email" = Some "me@localhost"
    /\ render pylib Ex.hello_subject K = inr "Hello Bob!".
Proof.
  destruct (context_has_the_six_keys pylib scripted Ex.live_two
              "me@localhost" Ex.hello_subject Ex.hello_body 2 0
              [["Alice"; "alice@example.com"]] "Bob" "bob@example.com" []
              Ex.sender_kw (@mkSt scripted [] 0) (@mkSt scripted [] 1)
              _ "Bob <bob@example.com>"
              ltac:(vm_compute; reflexivity) ltac:(vm_compute; reflexivity)
              ltac:(vm_compute; reflexivity))
    as (K & Hdom & Hname & _ & _ & _ & Hse & _ & _).
  exists K. split_and!; [exact Hdom|exact Hname|exact Hse|].
  cbn [render pylib Ex.hello_subject Tpl.render Tpl.render_segment rbind rmap].
  rewrite Hname. reflexivity.
Defined.

(** ** Splitting the message (line 143) *)

(** For every message with a newline, lines 135-149 hand the whole
    message to the template engine in two parts: the subject is the text
    before the first newline, the body everything after it (further
    newlines included), and subject, newline and body together are the
    message.  The run then is: the prompts, the sender formatting, the
    compilation of the subject, the compilation of the body (after the
    markdown conversion unless [--html]), the reading of the names file
    and the loop, in this order, the first failure ending the run. *)
Theorem message_splits_without_loss L Wd args w :
  has_newline (args_message args) = true ->
  exists subject body,
    args_message args = subject +:+ Py.NL +:+ body
    /\ has_newline subject = false
    /\ run L Wd args w =
       match prompt_credentials Wd args (mkSt w 0) with
       | (t0, s0, inl e) => (t0, s0, inl e)
       | (t0, s0, inr a) =>
           match sender_kwargs L args with
           | inl e => (t0, s0, inl e)
           | inr kwargs =>
               match from_string L subject with
               | inl e => (t0, s0, inl e)
               | inr raw_subject =>
                   match from_string L (if args_html args then body
                                        else markdown L body) with
                   | inl e => (t0, s0, inl e)
                   | inr raw_body =>
                       match reader L (args_names args) with
                       | inl e => (t0, s0, inl e)
                       | inr addresses =>
                           match
                             loop L Wd a
                               (snd (parseaddr L (args_sender args)))
                               raw_subject raw_body (length addresses) 0
                               addresses kwargs s0
                           with
                           | (t1, s1, r) => (t0 ++ t1, s1, r)
                           end
                       end
                   end
               end
           end
       end.
Proof.
  intros H. destruct (split1_shape (args_message args))
    as [[Hn _] | (subject & body & Hsplit & Hm & Hn)]; [congruence|].
  exists subject, body. split_and!; [done|done|].
  unfold run. rewrite main_eq.
  destruct (prompt_credentials Wd args (mkSt w 0)) as [[t0 s0] [e|a]] eqn:Hp;
    [done|].
  apply prompt_credentials_spec in Hp as (_ & _ & Hopt).
  destruct (Hopt a eq_refl) as (Hnames & Hmsg & Hhtml & Hsender & _).
  rewrite <- (sender_kwargs_ext L args a Hsender).
  rewrite <- (compile_templates_ext L args a Hmsg Hhtml), <- Hnames, <- Hsender.
  destruct (sender_kwargs L args) as [e|kwargs]; [done|].
  unfold compile_templates. rewrite Hsplit. cbn [Py.unpack2 rbind].
  destruct (from_string L subject) as [e|tS]; [done|]. cbn [rbind].
  destruct (from_string L _) as [e|tB]; [done|]. cbn [rbind].
  done.
Qed.

Lemma message_splits_without_loss_witness :
  exists subject body,
    Ex.hello = subject +:+ Py.NL +:+ body
    /\ has_newline subject = false
    /\ from_string pylib subject = inr Ex.hello_subject.
Proof.
  destruct (message_splits_without_loss pylib scripted Ex.dry_two []
              eq_refl) as (subject & body & Hm & Hn & _).
  exists subject, body. split_and!; [exact Hm|exact Hn|].
  pose proof (split1_first_newline subject body Hn) as Hs.
  change (args_message Ex.dry_two) with Ex.hello in Hm.
  rewrite <- Hm in Hs. vm_compute in Hs. injection Hs as <- <-.
  vm_compute. reflexivity.
Defined.

(** ** Failures outside the [try] block *)

(** When formatting the sender, compiling a template or reading the names
    file raises, the run raises before the loop: nothing but the banner
    and the prompts has happened, and no [SMTP] object exists. *)
Theorem setup_failure_precedes_the_rows L Wd args w tr s r e :
  run L Wd args w = (tr, s, r) ->
  sender_kwargs L args = inl e \/ compile_templates L args = inl e
  \/ reader L (args_names args) = inl e ->
  (exists e', r = inl e')
  /\ Forall (fun ev => is_prelude ev = true) tr
  /\ sessions s = 0.
Proof.
  unfold run. rewrite main_eq.
  destruct (prompt_credentials Wd args (mkSt w 0)) as [[t0 s0] r0] eqn:Hp.
  apply prompt_credentials_spec in Hp as (Hpre & Hs0 & Hopt).
  cbn [sessions] in Hs0.
  destruct r0 as [e0|a].
  { intros [= <- <- <-] _. eauto. }
  destruct (Hopt a eq_refl)
    as (Hnames & Hmsg & Hhtml & Hsender & _).
  rewrite <- (sender_kwargs_ext L args a Hsender).
  rewrite <- (compile_templates_ext L args a Hmsg Hhtml), <- Hnames.
  destruct (sender_kwargs L args) as [e1|kwargs].
  { intros [= <- <- <-] _. eauto. }
  destruct (compile_templates L args) as [e1|[tS tB]].
  { intros [= <- <- <-] _. eauto. }
  destruct (reader L (args_names args)) as [e1|rows].
  { intros [= <- <- <-] _. eauto. }
  intros _ [H | [H | H]]; discriminate.
Qed.

Lemma setup_failure_precedes_the_rows_witness :
  exists tr s r,
    run pylib scripted
      (default_args [Ex.alice] ("Hello {{ name" +:+ Py.NL +:+ "Welcome"))
      [] = (tr, s, r)
    /\ (exists e', r = inl e')
    /\ Forall (fun ev => is_prelude ev = true) tr
    /\ sessions s = 0.
Proof.
  eexists _, _, _. split; [vm_compute; reflexivity|].
  eapply (setup_failure_precedes_the_rows pylib scripted
            (default_args [Ex.alice]
               ("Hello {{ name" +:+ Py.NL +:+ "Welcome")) []);
    [vm_compute; reflexivity|].
  right. left. vm_compute. reflexivity.
Defined.

(** The library calls of a record row (formatting the recipient, rendering
    subject and body, serializing the message) are outside the [try]
    block: when one of them raises, the loop raises that exception, at
    most the row's progress text has been printed, the server has not
    been contacted for the row, and no later row is looked at. *)
Theorem library_failure_ends_the_loop
    L Wd args sender_email (raw_subject raw_body : Template L) total
    index pre name email post kwargs (s s1 : st Wd) t1 e :
  loop L Wd args sender_email raw_subject raw_body total index pre kwargs s
    = (t1, s1, inr tt) ->
  outgoing L args raw_subject raw_body total (index + length pre) name email
    (kwargs_after L pre kwargs) = inl e ->
  exists t,
    loop L Wd args sender_email raw_subject raw_body total index
      (pre ++ [name; email] :: post) kwargs s = (t1 ++ t, s1, inl e)
    /\ (t = [] \/ exists p, t = [EPrint L162 p]).
Proof.
  intros Hpre Hout. rewrite loop_app, Hpre, loop_cons. cbn [iteration].
  destruct (process_raises L Wd args sender_email raw_subject raw_body total
              _ _ _ _ s1 e Hout) as (t & -> & Ht).
  exists t. done.
Qed.

Lemma library_failure_ends_the_loop_witness :
  exists t,
    loop pylib scripted Ex.live_two "me@localhost"
      Ex.hello_subject Ex.hello_body 3 0
      ([["Alice"; "alice@example.com"]]
         ++ ["Bob"; String "233" "@example.com"]
         :: [["Dan"; "dan@example.com"]])
      Ex.sender_kw (@mkSt scripted [] 0) = (t, @mkSt scripted [] 1,
                                            inl Ref.UnicodeEncodeError)
    /\ sends t = [0].
Proof.
  edestruct (library_failure_ends_the_loop pylib scripted Ex.live_two
               "me@localhost" Ex.hello_subject Ex.hello_body 3 0
               [["Alice"; "alice@example.com"]]
               "Bob" (String "233" "@example.com")
               [["Dan"; "dan@example.com"]] Ex.sender_kw
               (@mkSt scripted [] 0))
    as (t & Hl & Ht); [vm_compute; reflexivity | vm_compute; reflexivity |].
  rewrite Hl. eexists. split; [reflexivity|].
  destruct Ht as [-> | [p ->]]; vm_compute; reflexivity.
Defined.

(** ** TLS, pacing and envelopes (lines 129-134 and 177-189) *)

(** With [--tls], [sendmail] is only called on an [SMTP] object after
    [starttls] and [login] were called on it, and [login] after
    [starttls]; without [--tls] neither is ever called.  Every [login] of
    a run gets the same credentials, and these are the ones of the
    command line where it gives them. *)
Theorem tls_precedes_sendmail L Wd args w tr s r :
  run L Wd args w = (tr, s, r) ->
  (args_tls args = false -> upgrades tr = [] /\ logins tr = [])
  /\ (args_tls args = true ->
      sends tr `sublist_of` logins tr /\ logins tr `sublist_of` upgrades tr
      /\ upgrades tr `sublist_of` connects tr)
  /\ exists u p,
       Forall (eq (u, p)) (login_credentials tr)
       /\ (Py.falsy (args_username args) = false -> u = args_username args)
       /\ (Py.falsy (args_password args) = false -> p = args_password args).
Proof.
  intros Hrun.
  destruct (run_disciplined L Wd args w tr s r Hrun)
    as (a & Hsame & Hu & Hp & (env & Hd) & _).
  destruct Hsame as (_ & _ & _ & _ & _ & _ & _ & Htls & _).
  destruct Hd as (A & B & C & _). rewrite <- Htls in A, B.
  split_and!; [done|done|]. exists (args_username a), (args_password a).
  done.
Qed.

Lemma tls_precedes_sendmail_witness :
  exists tr s,
    run pylib scripted Ex.tls_two [] = (tr, s, inr tt)
    /\ sends tr `sublist_of` logins tr
    /\ logins tr = [0; 1]
    /\ Forall (eq (Some "me", Some "secret")) (login_credentials tr).
Proof.
  eexists _, _. split; [vm_compute; reflexivity|].
  edestruct (tls_precedes_sendmail pylib scripted Ex.tls_two [])
    as (_ & H & u & p & Hup & Hu & Hp); [vm_compute; reflexivity|].
  destruct (H eq_refl) as (Hs & _ & _).
  rewrite (Hu eq_refl), (Hp eq_refl) in Hup.
  split_and!; [exact Hs|vm_compute; reflexivity|exact Hup].
Defined.

(** The run sleeps exactly once after every printed OK, each time for
    [--interval] seconds, and prints OK only after a [sendmail]; a failed
    delivery is followed by no sleep, and a dry run never sleeps. *)
Theorem one_sleep_per_ok L Wd args w tr s r :
  run L Wd args w = (tr, s, r) ->
  sleeps tr = repeat (args_interval args) (length (printed L186 tr))
  /\ Forall (eq ("OK" +:+ Py.NL)) (printed L186 tr)
  /\ length (printed L186 tr) <= length (sends tr)
  /\ (args_test args = true -> sleeps tr = [] /\ printed L186 tr = []).
Proof.
  intros Hrun.
  destruct (run_disciplined L Wd args w tr s r Hrun)
    as (a & Hsame & _ & _ & (env & Hd) & _).
  destruct Hsame as (_ & _ & _ & _ & Hint & _ & _ & _ & Htest).
  destruct Hd as (_ & _ & _ & D & E & F & _ & H).
  rewrite <- Hint in D. rewrite <- Htest in H. done.
Qed.

Lemma one_sleep_per_ok_witness :
  exists tr s,
    run pylib scripted Ex.live_two [inr tt; refused "Mailbox unavailable"]
    = (tr, s, inr tt)
    /\ sleeps tr = [0.25%float]
    /\ length (sends tr) = 2.
Proof.
  eexists _, _. split; [vm_compute; reflexivity|].
  edestruct (one_sleep_per_ok pylib scripted Ex.live_two
               [inr tt; refused "Mailbox unavailable"])
    as (H & _); [vm_compute; reflexivity|].
  split; [rewrite H|]; vm_compute; reflexivity.
Defined.

Lemma envelopes_messages L args sender_email (raw_subject raw_body : Template L)
    total index rows kwargs :
  map (fun e => snd e)
    (envelopes L args sender_email raw_subject raw_body total index rows
       kwargs)
  = messages L args raw_subject raw_body total index rows kwargs
  /\ Forall (fun e => fst (fst e) = sender_email)
       (envelopes L args sender_email raw_subject raw_body total index rows
          kwargs).
Proof.
  revert index kwargs.
  induction rows as [|line rows IH]; intros index kwargs.
  - split; [done|constructor].
  - cbn [envelopes messages]. rewrite map_app.
    destruct (IH (S index) (kwargs_after_row L kwargs line)) as [-> Hf].
    assert (map (fun e => snd e)
              (row_envelope L args sender_email raw_subject raw_body total
                 index line kwargs)
            = row_message L args raw_subject raw_body total index line kwargs
            /\ Forall (fun e => fst (fst e) = sender_email)
                 (row_envelope L args sender_email raw_subject raw_body total
                    index line kwargs)) as [-> Hr].
    { destruct line as [|name [|email [|c l]]];
        try (split; [done|constructor]).
      cbn [row_envelope row_message].
      destruct (outgoing _ _ _ _ _ _ _ _ _) as [e|[[rcp prog] msg]];
        (split; [done|repeat constructor]). }
    split; [done|by apply Forall_app].
Qed.

(** What a live run hands to [sendmail] is, in file order, a selection of
    the very messages a dry run would print (those of the rows whose
    delivery got as far as [sendmail]), each with the formatted recipient
    of its row and with the address parsed from [--sender], not the raw
    [--sender] string, as envelope sender. *)
Theorem live_run_sends_the_dry_run_messages
    L Wd args w tr s r rows (raw_subject raw_body : Template L) kwargs :
  run L Wd args w = (tr, s, r) ->
  reader L (args_names args) = inr rows ->
  compile_templates L args = inr (raw_subject, raw_body) ->
  sender_kwargs L args = inr kwargs ->
  map (fun e => snd e) (sent tr)
    `sublist_of` messages L args raw_subject raw_body (length rows) 0 rows
                   kwargs
  /\ Forall (fun e => fst (fst e) = snd (parseaddr L (args_sender args)))
       (sent tr).
Proof.
  intros Hrun Hrows Htpl Hkw.
  destruct (run_disciplined L Wd args w tr s r Hrun)
    as (a & Hsame & _ & _ & _ & Hd).
  specialize (Hd rows raw_subject raw_body kwargs Hrows Htpl Hkw).
  destruct Hd as (_ & _ & _ & _ & _ & F & G & _).
  destruct (envelopes_messages L args (snd (parseaddr L (args_sender args)))
              raw_subject raw_body (length rows) 0 rows kwargs) as [Hm Hf].
  split_and!.
  - rewrite <- Hm. by apply (fmap_sublist (fun e => snd e)).
  - apply Forall_forall. intros e He.
    apply (proj1 (Forall_forall _ _) Hf).
    by apply (sublist_subseteq _ _ G).
Qed.

Lemma live_run_sends_the_dry_run_messages_witness :
  exists tr s kwargs,
    run pylib scripted (Ex.with_sender Ex.tight_sender Ex.live_two)
      [refused "Connection refused"] = (tr, s, inr tt)
    /\ map (fun e => snd e) (sent tr)
         `sublist_of` messages pylib
                        (Ex.with_sender Ex.tight_sender Ex.live_two)
                        Ex.hello_subject Ex.hello_body 2 0
                        [["Alice"; "alice@example.com"];
                         ["Bob"; "bob@example.com"]] kwargs
    /\ length (sent tr) = 1
    /\ Forall (fun e => fst (fst e) = "john@smith.com") (sent tr).
Proof.
  eexists _, _, _. split; [vm_compute; reflexivity|].
  edestruct (live_run_sends_the_dry_run_messages pylib scripted
               (Ex.with_sender Ex.tight_sender Ex.live_two)
               [refused "Connection refused"])
    as (Hm & Hf); [vm_compute; reflexivity..|].
  split_and!; [exact Hm|vm_compute; reflexivity|exact Hf].
Defined.

(** ** What a run prints (lines 156, 162, 174, 186 and 189) *)

Section Report.

Context (L : Library) (Wd : World).
Context (args : Args) (sender_email : string)
        (raw_subject raw_body : Template L) (total : nat).

Implicit Types (s : st Wd) (kwargs : gmap string string).

(** The try block prints nothing but the OK line, at most once, and
    exactly once when it does not raise. *)
Lemma transmit_prints recipient message s t s1 r :
  transmit Wd args sender_email recipient message s = (t, s1, r) ->
  (forall l, l <> L186 -> printed l t = [])
  /\ length (printed L186 t) <= 1
  /\ (r = inr tt -> length (printed L186 t) = 1).
Proof.
  unfold transmit, bind, SMTP, starttls, login, sendmail, print, print_end,
    sleep, emit, ret.
  destruct (w_connect Wd _ _ (world s)) as [w1 [e|[]]]; cbn [rmap].
  { intros [= <- <- <-]. split_and!; [by intros []|vm_compute; lia|first [done|intros _; vm_compute; reflexivity]]. }
  destruct (args_tls args).
  - cbn [world sessions].
    destruct (w_starttls Wd _ w1) as [w2 [e|[]]].
    { intros [= <- <- <-]. split_and!; [by intros []|vm_compute; lia|first [done|intros _; vm_compute; reflexivity]]. }
    cbn [world sessions].
    destruct (w_login Wd _ _ _ w2) as [w3 [e|[]]].
    { intros [= <- <- <-]. split_and!; [by intros []|vm_compute; lia|first [done|intros _; vm_compute; reflexivity]]. }
    cbn [world sessions].
    destruct (w_sendmail Wd _ _ _ _ w3) as [w4 [e|[]]].
    { intros [= <- <- <-]. split_and!; [by intros []|vm_compute; lia|first [done|intros _; vm_compute; reflexivity]]. }
    cbn [world sessions]. destruct (w_sleep Wd _ w4) as [w5 [e|[]]];
      intros [= <- <- <-]; (split_and!; [by intros []|vm_compute; lia|first [done|intros _; vm_compute; reflexivity]]).
  - cbn [world sessions].
    destruct (w_sendmail Wd _ _ _ _ w1) as [w4 [e|[]]].
    { intros [= <- <- <-]. split_and!; [by intros []|vm_compute; lia|first [done|intros _; vm_compute; reflexivity]]. }
    cbn [world sessions]. destruct (w_sleep Wd _ w4) as [w5 [e|[]]];
      intros [= <- <- <-]; (split_and!; [by intros []|vm_compute; lia|first [done|intros _; vm_compute; reflexivity]]).
Qed.

Abbreviation verdicts t :=
  (length (printed L186 t) + length (printed L189 t)).

(** What handing over one message prints. *)
Lemma hand_over_prints recipient message s t s1 r :
  hand_over Wd args sender_email recipient message s = (t, s1, r) ->
  printed L156 t = [] /\ printed L162 t = []
  /\ (args_test args = true ->
      printed L174 t = ["Testing" +:+ Py.NL] /\ verdicts t = 0)
  /\ (args_test args = false ->
      printed L174 t = [] /\ 1 <= verdicts t
      /\ length (printed L186 t) <= 1 /\ length (printed L189 t) <= 1).
Proof.
  destruct (args_test args) eqn:Ht.
  - rewrite hand_over_test by done. intros [= <- <- <-].
    split_and!; done.
  - rewrite hand_over_live by done.
    destruct (transmit _ _ _ _ _ s) as [[t1 s2] r1] eqn:Htr.
    apply transmit_prints in Htr as (Ho & Hle & Hok).
    intros [= <- <- <-].
    destruct r1 as [e|[]]; cbn [handled].
    + rewrite !printed_app, (Ho L156), (Ho L162), (Ho L174), (Ho L189)
        by done.
      change (printed L156 [EPrint L189 (exn_text e +:+ Py.NL)]) with (@nil string).
      change (printed L162 [EPrint L189 (exn_text e +:+ Py.NL)]) with (@nil string).
      change (printed L174 [EPrint L189 (exn_text e +:+ Py.NL)]) with (@nil string).
      change (printed L186 [EPrint L189 (exn_text e +:+ Py.NL)]) with (@nil string).
      change (printed L189 [EPrint L189 (exn_text e +:+ Py.NL)])
        with [exn_text e +:+ Py.NL].
      rewrite !app_nil_r. cbn [app length].
      split_and!; [done|done|done|intros _].
      split_and!; [done|lia|lia|lia].
    + rewrite (Ho L156), (Ho L162), (Ho L174), (Ho L189) by done.
      specialize (Hok eq_refl).
      split_and!; [done|done|done|intros _]. cbn.
      split_and!; [done|lia|lia|lia].
Qed.

Lemma iteration_prints index line kwargs s t s1 kwargs' :
  iteration L Wd args sender_email raw_subject raw_body total
    index line kwargs s = (t, s1, inr kwargs') ->
  printed L156 t = diagnostics [line]
  /\ printed L162 t = row_progress L total index line
  /\ length (printed L162 t) = tally (two_fields line)
  /\ (args_test args = true ->
      printed L174 t = repeat ("Testing" +:+ Py.NL) (tally (two_fields line))
      /\ verdicts t = 0)
  /\ (args_test args = false ->
      printed L174 t = []
      /\ tally (two_fields line) <= verdicts t
      /\ length (printed L186 t) <= tally (two_fields line)
      /\ length (printed L189 t) <= tally (two_fields line)).
Proof.
  destruct (two_fields line) eqn:Htwo.
  - destruct line as [|name [|email [|c l]]]; try discriminate.
    cbn [iteration].
    destruct (outgoing L args raw_subject raw_body total index name email
                kwargs) as [e|[[rcp prog] msg]] eqn:Hout.
    { destruct (process_raises L Wd args sender_email raw_subject raw_body
                  total index name email kwargs s e Hout) as (t' & -> & _).
      discriminate. }
    rewrite (process_outgoing L Wd args sender_email raw_subject raw_body
               total _ _ _ _ _ _ _ _ Hout).
    destruct (outgoing_recipient L args raw_subject raw_body total
                _ _ _ _ _ _ _ Hout) as [Hrcp Hprog].
    destruct (hand_over _ _ _ _ _ s) as [[t2 s2] r2] eqn:Hh.
    apply hand_over_prints in Hh as (H156 & H162 & Htest & Hlive).
    intros [= <- <- _]. cbn [row_progress tally]. rewrite Hrcp.
    change (printed L156 (EPrint L162 prog :: t2)) with (printed L156 t2).
    change (printed L162 (EPrint L162 prog :: t2))
      with (prog :: printed L162 t2).
    change (printed L174 (EPrint L162 prog :: t2)) with (printed L174 t2).
    change (printed L186 (EPrint L162 prog :: t2)) with (printed L186 t2).
    change (printed L189 (EPrint L162 prog :: t2)) with (printed L189 t2).
    rewrite H156, H162, Hprog. split_and!; done.
  - destruct line as [|a l].
    + rewrite iteration_blank. intros [= <- <- _]. split_and!; done.
    + rewrite iteration_malformed by done. intros [= <- <- _].
      assert (malformed (a :: l) = true) as Hm.
      { destruct l as [|b [|c l]]; try done. }
      assert (row_progress L total index (a :: l) = []) as ->.
      { destruct l as [|b [|c l]]; try done. }
      unfold diagnostics. cbn [List.filter]. rewrite Hm.
      split_and!; done.
Qed.

Lemma loop_prints index rows kwargs s t s1 :
  loop L Wd args sender_email raw_subject raw_body total
    index rows kwargs s = (t, s1, inr tt) ->
  printed L156 t = diagnostics rows
  /\ printed L162 t = progress_lines L total index rows
  /\ length (printed L162 t) = count_records rows
  /\ (args_test args = true ->
      printed L174 t = repeat ("Testing" +:+ Py.NL) (count_records rows)
      /\ verdicts t = 0)
  /\ (args_test args = false ->
      printed L174 t = []
      /\ count_records rows <= verdicts t
      /\ length (printed L186 t) <= count_records rows
      /\ length (printed L189 t) <= count_records rows).
Proof.
  revert index kwargs s t s1.
  induction rows as [|line rows IH]; intros index kwargs s t s1.
  - intros [= <- <-]. split_and!; done.
  - rewrite loop_cons.
    destruct (iteration _ _ _ _ _ _ _ _ _ _ s) as [[t1 s2] [e|kw]] eqn:Hit;
      [discriminate|].
    apply iteration_prints in Hit as (A1 & B1 & C1 & D1 & E1).
    destruct (loop _ _ _ _ _ _ _ _ _ _ s2) as [[t2 s3] r2] eqn:Hl.
    intros [= <- <- ->].
    apply IH in Hl as (A2 & B2 & C2 & D2 & E2).
    rewrite !printed_app, A1, A2, B1, B2.
    assert (count_records (line :: rows)
            = tally (two_fields line) + count_records rows) as ->.
    { unfold count_records. cbn [List.filter].
      by destruct (two_fields line). }
    split_and!.
    + unfold diagnostics. cbn [List.filter].
      by destruct (malformed line).
    + done.
    + rewrite length_app, <- B1, <- B2. lia.
    + intros Ht. destruct (D1 Ht) as [-> ?], (D2 Ht) as [-> ?].
      rewrite repeat_app, !length_app. split; [done|lia].
    + intros Ht. destruct (E1 Ht) as (-> & ? & ? & ?).
      destruct (E2 Ht) as (-> & ? & ? & ?).
      rewrite !length_app. split_and!; [done|lia|lia|lia].
Qed.

End Report.

Lemma prelude_prints l t :
  l <> L130 -> Forall (fun ev => is_prelude ev = true) t -> printed l t = [].
Proof.
  intros Hl H. induction H as [|ev t Hev _ IH]; [done|].
  destruct ev as [l' ?| | | | | | |]; try done.
  destruct l'; try done. by destruct l.
Qed.

(** A run that returns has reported every row of the names file but the
    blank ones, in file order and in either mode: line 156 printed the
    diagnostic of each malformed row, and line 162 the progress text of
    each record row, numbered by the position of the row among all rows
    (blank and malformed ones count) out of their total.  A dry run then
    printed Testing once per record and neither OK nor an error text; a
    live run printed OK or an error text for every record, each at most
    once per record. *)
Theorem every_row_is_reported L Wd args w tr s rows :
  run L Wd args w = (tr, s, inr tt) ->
  reader L (args_names args) = inr rows ->
  printed L156 tr = diagnostics rows
  /\ printed L162 tr = progress_lines L (length rows) 0 rows
  /\ length (printed L162 tr) = count_records rows
  /\ (args_test args = true ->
      printed L174 tr = repeat ("Testing" +:+ Py.NL) (count_records rows)
      /\ printed L186 tr = [] /\ printed L189 tr = [])
  /\ (args_test args = false ->
      printed L174 tr = []
      /\ count_records rows
         <= length (printed L186 tr) + length (printed L189 tr)
      /\ length (printed L186 tr) <= count_records rows
      /\ length (printed L189 tr) <= count_records rows).
Proof.
  unfold run. rewrite main_eq.
  destruct (prompt_credentials Wd args (mkSt w 0)) as [[t0 s0] r0] eqn:Hp.
  apply prompt_credentials_spec in Hp as (Hpre & _ & Hopt).
  destruct r0 as [e|a]; [discriminate|].
  destruct (Hopt a eq_refl)
    as (Hnames & _ & _ & _ & _ & _ & _ & _ & Htest).
  rewrite <- Hnames.
  destruct (sender_kwargs L a) as [e|kwargs]; [discriminate|].
  destruct (compile_templates L a) as [e|[tS tB]]; [discriminate|].
  intros Hrun Hrows. rewrite Hrows in Hrun.
  destruct (loop _ _ _ _ _ _ _ _ _ _ s0) as [[t1 s1] r1] eqn:Hl.
  injection Hrun as <- <- ->.
  apply loop_prints in Hl as (A & B & C & D & E).
  rewrite <- Htest in D, E.
  rewrite !printed_app, !(prelude_prints _ t0) by done.
  cbn [app]. split_and!; [done|done|done| |done].
  intros Ht. destruct (D Ht) as [-> Hz]. split; [done|].
  split; apply length_zero_iff_nil; lia.
Qed.

Lemma every_row_is_reported_witness :
  exists tr s,
    run pylib scripted
      (default_args [Ex.alice; ""; Ex.carol; Ex.bob] Ex.hello)
      [refused "Connection refused"] = (tr, s, inr tt)
    /\ printed L156 tr
       = ["Improperly formatted user: " +:+ Py.DQ +:+ "Carol" +:+ Py.DQ
            +:+ "." +:+ Py.NL]
    /\ printed L162 tr
       = ["1 / 4: Alice <alice@example.com>... ";
          "4 / 4: Bob <bob@example.com>... "]
    /\ 2 <= length (printed L186 tr) + length (printed L189 tr).
Proof.
  eexists _, _. split; [vm_compute; reflexivity|].
  edestruct (every_row_is_reported pylib scripted
               (default_args [Ex.alice; ""; Ex.carol; Ex.bob] Ex.hello)
               [refused "Connection refused"])
    as (A & B & _ & _ & E); [vm_compute; reflexivity..|].
  destruct (E eq_refl) as (_ & Hv & _).
  split_and!; [rewrite A|rewrite B|exact Hv]; vm_compute; reflexivity.
Defined.

(** ** The banner and the prompts (lines 129-134) *)

Section Prompts.

Context (L : Library) (Wd : World).

Implicit Types (s : st Wd) (kwargs : gmap string string).

Lemma prompt_credentials_trace args s t s1 r :
  prompt_credentials Wd args s = (t, s1, r) ->
  (args_tls args = false -> t = [] /\ s1 = s /\ r = inr args)
  /\ (args_tls args = true ->
      exists asked,
        t = EPrint L130 ("TLS enabled." +:+ Py.NL) :: asked
        /\ asked `prefix_of` questions args
        /\ (forall a, r = inr a -> asked = questions args)).
Proof.
  destruct args as [nm msg h sd iv hn pt tls u pw tst].
  unfold prompt_credentials, questions, bind, print, print_end, emit, input,
    getpass, ret, set_username, set_password.
  cbn. destruct tls.
  2:{ intros [= <- <- <-]. split; [done|discriminate]. }
  intros Hrun. split; [discriminate|intros _]. revert Hrun.
  destruct (Py.falsy u) eqn:Hu; cbn.
  - destruct (w_input Wd _ (world s)) as [w1 [e|u1]].
    { intros [= <- <- <-]. eexists. split; [reflexivity|].
      split; [|discriminate]. by eexists. }
    cbn. destruct (Py.falsy pw) eqn:Hpw; cbn.
    + destruct (w_getpass Wd _ w1) as [w2 [e|p1]];
        intros [= <- <- <-]; (eexists; split; [reflexivity|]);
        (split; [done|done]).
    + intros [= <- <- <-]. eexists; split; [reflexivity|]. done.
  - destruct (Py.falsy pw) eqn:Hpw; cbn.
    + destruct (w_getpass Wd _ (world s)) as [w2 [e|p1]];
        intros [= <- <- <-]; (eexists; split; [reflexivity|]);
        (split; [done|done]).
    + intros [= <- <- <-]. eexists; split; [reflexivity|]. done.
Qed.

Lemma loop_asks_nothing args sender_email (raw_subject raw_body : Template L)
    total index rows kwargs s t s1 r :
  loop L Wd args sender_email raw_subject raw_body total index rows kwargs s
  = (t, s1, r) ->
  Forall (fun ev => is_prelude ev = false) t.
Proof.
  revert index kwargs s t s1 r.
  induction rows as [|line rows IH]; intros index kwargs s t s1 r.
  - intros [= <- <- <-]. constructor.
  - rewrite loop_cons.
    destruct (iteration _ _ _ _ _ _ _ _ _ _ s) as [[t1 s2] r1] eqn:Hit.
    assert (Forall (fun ev => is_prelude ev = false) t1) as H1.
    { clear IH. destruct (two_fields line) eqn:Htwo.
      - destruct line as [|name [|email [|c l]]]; try discriminate.
        cbn [iteration] in Hit.
        destruct (outgoing L args raw_subject raw_body total index name email
                    kwargs) as [e|[[rcp prog] msg]] eqn:Hout.
        + destruct (process_raises L Wd args sender_email raw_subject
                      raw_body total index name email kwargs s e Hout)
            as (t' & Hpr & Ht').
          rewrite Hpr in Hit. injection Hit as <- <- <-.
          destruct Ht' as [-> | [p ->]]; repeat constructor.
        + rewrite (process_outgoing L Wd args sender_email raw_subject
                     raw_body total _ _ _ _ _ _ _ _ Hout) in Hit.
          destruct (args_test args) eqn:Ht.
          * rewrite hand_over_test in Hit by done.
            injection Hit as <- <- <-. repeat constructor.
          * rewrite hand_over_live in Hit by done.
            destruct (transmit _ _ _ _ _ s) as [[t2 s3] r2] eqn:Htr.
            injection Hit as <- <- <-. constructor; [done|].
            apply transmit_cases in Htr. cbn zeta in Htr.
            assert (Forall (fun ev => is_prelude ev = false) t2) as H2.
            { destruct (args_tls args); cbn [In] in Htr;
                repeat (destruct Htr as [<- | Htr]; [repeat constructor|]);
                destruct Htr. }
            destruct r2 as [e|[]]; cbn [handled]; [|done].
            apply Forall_app; split; [done|repeat constructor].
      - destruct line as [|a l].
        + rewrite iteration_blank in Hit. injection Hit as <- <- <-.
          constructor.
        + rewrite iteration_malformed in Hit by done.
          injection Hit as <- <- <-. repeat constructor. }
    destruct r1 as [e|kw]; [by intros [= <- <- <-]|].
    destruct (loop _ _ _ _ _ _ _ _ _ _ s2) as [[t2 s3] r2] eqn:Hl.
    intros [= <- <- <-]. apply Forall_app; split; [done|by eapply IH].
Qed.

End Prompts.

(** The program talks to the terminal about credentials only under
    [--tls], and then before anything else: it prints the banner, asks for
    the username when [--username] is missing or empty, then for the
    password when [--password] is missing or empty, and never asks
    again.  A run that did not raise in a prompt has asked every one of
    these questions, in this order; [--test] makes no difference. *)
Theorem missing_credentials_are_asked_for_first L Wd args w tr s r :
  run L Wd args w = (tr, s, r) ->
  (args_tls args = false -> Forall (fun ev => is_prelude ev = false) tr)
  /\ (args_tls args = true ->
      exists asked rest,
        tr = EPrint L130 ("TLS enabled." +:+ Py.NL) :: asked ++ rest
        /\ asked `prefix_of` questions args
        /\ Forall (fun ev => is_prelude ev = false) rest
        /\ (r = inr tt -> asked = questions args)).
Proof.
  unfold run. rewrite main_eq.
  destruct (prompt_credentials Wd args (mkSt w 0)) as [[t0 s0] r0] eqn:Hp.
  apply prompt_credentials_trace in Hp as [Hoff Hon]. intros Hrun.
  assert (exists rest,
             tr = t0 ++ rest
             /\ Forall (fun ev => is_prelude ev = false) rest
             /\ (r = inr tt -> exists a, r0 = inr a)) as (rest & -> & Hr & Ha).
  { revert Hrun. destruct r0 as [e|a].
    { intros [= <- <- <-]. exists []. rewrite app_nil_r.
      split_and!; [done|constructor|discriminate]. }
    destruct (sender_kwargs L a) as [e|kwargs].
    { intros [= <- <- <-]. exists []. rewrite app_nil_r.
      split_and!; [done|constructor|discriminate]. }
    destruct (compile_templates L a) as [e|[tS tB]].
    { intros [= <- <- <-]. exists []. rewrite app_nil_r.
      split_and!; [done|constructor|discriminate]. }
    destruct (reader L (args_names a)) as [e|rows].
    { intros [= <- <- <-]. exists []. rewrite app_nil_r.
      split_and!; [done|constructor|discriminate]. }
    destruct (loop _ _ _ _ _ _ _ _ _ _ s0) as [[t1 s1] r1] eqn:Hl.
    apply loop_asks_nothing in Hl.
    intros [= <- <- <-]. exists t1. split_and!; [done|done|eauto]. }
  split.
  - intros Htls. destruct (Hoff Htls) as (-> & _). done.
  - intros Htls. destruct (Hon Htls) as (asked & -> & Hpre & Hall).
    exists asked, rest. split_and!; [done|done|done|].
    intros Hret. destruct (Ha Hret) as [a ->]. by eapply Hall.
Qed.

Lemma missing_credentials_are_asked_for_first_witness :
  exists tr s,
    run pylib scripted
      (set_username (Some "") (set_password None (Ex.with_test Ex.tls_two)))
      [] = (tr, s, inr tt)
    /\ exists rest,
         tr = EPrint L130 ("TLS enabled." +:+ Py.NL)
                :: [EInput "Username: "; EGetpass "Password: "] ++ rest
         /\ Forall (fun ev => is_prelude ev = false) rest.
Proof.
  eexists _, _. split; [vm_compute; reflexivity|].
  edestruct (missing_credentials_are_asked_for_first pylib scripted
               (set_username (Some "")
                  (set_password None (Ex.with_test Ex.tls_two))) [])
    as (_ & H); [vm_compute; reflexivity|].
  destruct (H eq_refl) as (asked & rest & Htr & _ & Hrest & Hall).
  rewrite (Hall eq_refl) in Htr.
  change (questions _)
    with [EInput "Username: "; EGetpass "Password: "] in Htr.
  exists rest. split; [exact Htr|exact Hrest].
Defined.

(** ** Dry runs and the world *)

Section DryRow.

Context (L : Library) (Wd : World).
Context (args : Args) (sender_email : string)
        (raw_subject raw_body : Template L) (total : nat).

(** A row whose library calls raise has printed its progress text exactly
    when [formataddr] returned: line 162 lies between [formataddr] and
    the renders. *)
Lemma process_raises_trace index name email kwargs (s : st Wd) e :
  outgoing L args raw_subject raw_body total index name email kwargs
    = inl e ->
  process L Wd args sender_email raw_subject raw_body total
    index name email kwargs s
  = (match formataddr L (name, email) with
     | inl _ => []
     | inr recipient => [EPrint L162 (progress_line index total recipient)]
     end, s, inl e).
Proof.
  unfold outgoing, process, bind_recipient.
  unfold bind at 1. unfold lift at 1.
  destruct (formataddr L (name, email)) as [e1|rcp].
  { by intros [= ->]. }
  cbn [rbind]. unfold bind at 1. unfold lift at 1.
  rewrite format_progress.
  unfold bind at 1. unfold print_end at 1, emit at 1.
  rewrite append_nil_r.
  unfold bind at 1. unfold lift at 1.
  destruct (render L raw_subject _) as [e1|subject].
  { by intros [= ->]. }
  cbn [rbind]. unfold bind at 1. unfold lift at 1.
  destruct (render L raw_body _) as [e1|body].
  { by intros [= ->]. }
  cbn [rbind]. unfold bind at 1. unfold lift at 1.
  rewrite build_message_eq. cbn [rbind].
  unfold bind at 1. unfold lift at 1.
  destruct (as_string L _) as [e1|msg]; [|discriminate].
  by intros [= ->].
Qed.

End DryRow.

Section DryWorld.

Context (L : Library) (Wd Wd' : World).
Context (args : Args) (sender_email sender_email' : string)
        (raw_subject raw_body : Template L) (total : nat).

Hypothesis Htest : args_test args = true.

(** In a dry run a row leaves the world as it is, and what it prints and
    returns is the same in any world. *)
Lemma iteration_dry index line kwargs (s : st Wd) (s' : st Wd') :
  exists t r,
    iteration L Wd args sender_email raw_subject raw_body total
      index line kwargs s = (t, s, r)
    /\ iteration L Wd' args sender_email' raw_subject raw_body total
         index line kwargs s' = (t, s', r)
    /\ Forall (fun ev => is_print ev = true) t.
Proof.
  destruct (two_fields line) eqn:Htwo.
  - destruct line as [|name [|email [|c l]]]; try discriminate.
    cbn [iteration].
    destruct (outgoing L args raw_subject raw_body total index name email
                kwargs) as [e|[[rcp prog] msg]] eqn:Hout.
    + rewrite (process_raises_trace L Wd args sender_email raw_subject
                 raw_body total index name email kwargs s e Hout).
      rewrite (process_raises_trace L Wd' args sender_email' raw_subject
                 raw_body total index name email kwargs s' e Hout).
      eexists _, _. split_and!; [done|done|].
      destruct (formataddr L (name, email)); repeat constructor.
    + rewrite (process_outgoing L Wd args sender_email raw_subject raw_body
                 total _ _ _ _ _ _ _ _ Hout).
      rewrite (process_outgoing L Wd' args sender_email' raw_subject raw_body
                 total _ _ _ _ _ _ _ _ Hout).
      rewrite !hand_over_test by done.
      eexists _, _. split_and!; [done|done|repeat constructor].
  - destruct line as [|a l].
    + rewrite !iteration_blank.
      eexists _, _. split_and!; [done|done|constructor].
    + rewrite !iteration_malformed by done.
      eexists _, _. split_and!; [done|done|repeat constructor].
Qed.

Lemma loop_dry index rows kwargs (s : st Wd) (s' : st Wd') :
  exists t r,
    loop L Wd args sender_email raw_subject raw_body total
      index rows kwargs s = (t, s, r)
    /\ loop L Wd' args sender_email' raw_subject raw_body total
         index rows kwargs s' = (t, s', r)
    /\ Forall (fun ev => is_print ev = true) t.
Proof.
  revert index kwargs.
  induction rows as [|line rows IH]; intros index kwargs.
  - exists [], (inr tt). split_and!; [done|done|constructor].
  - rewrite !loop_cons.
    destruct (iteration_dry index line kwargs s s')
      as (t1 & r1 & -> & -> & H1).
    destruct r1 as [e|kw]; [eauto|].
    destruct (IH (S index) kw) as (t2 & r2 & -> & -> & H2).
    eexists _, _. split_and!; [done|done|by apply Forall_app].
Qed.

End DryWorld.

(** A dry run without [--tls] is a function of the command line and the
    two files alone: with [--test] the program reads nothing from the
    terminal, creates no [SMTP] object and does not sleep, so in any two
    worlds it prints the same texts and ends the same way, and it leaves
    the world as it found it. *)
Theorem dry_run_ignores_the_world
    L Wd Wd' args (w : W Wd) (w' : W Wd') :
  args_test args = true -> args_tls args = false ->
  exists tr r,
    run L Wd args w = (tr, mkSt w 0, r)
    /\ run L Wd' args w' = (tr, mkSt w' 0, r)
    /\ Forall (fun ev => is_print ev = true) tr.
Proof.
  intros Htest Htls.
  unfold run. rewrite !main_eq.
  unfold prompt_credentials. rewrite Htls. unfold ret.
  destruct (sender_kwargs L args) as [e|kwargs].
  { eexists _, _. split_and!; [done|done|constructor]. }
  destruct (compile_templates L args) as [e|[tS tB]].
  { eexists _, _. split_and!; [done|done|constructor]. }
  destruct (reader L (args_names args)) as [e|rows].
  { eexists _, _. split_and!; [done|done|constructor]. }
  destruct (loop_dry L Wd Wd' args (snd (parseaddr L (args_sender args)))
              (snd (parseaddr L (args_sender args)))
              tS tB (length rows) Htest 0 rows kwargs (mkSt w 0) (mkSt w' 0))
    as (t1 & r1 & -> & -> & Hp).
  cbn [app]. eauto.
Qed.

Lemma dry_run_ignores_the_world_witness :
  exists tr,
    run pylib scripted Ex.dry_two [] = (tr, @mkSt scripted [] 0, inr tt)
    /\ run pylib scripted Ex.dry_two [refused "Connection refused"]
       = (tr, @mkSt scripted [refused "Connection refused"] 0, inr tt)
    /\ Forall (fun ev => is_print ev = true) tr.
Proof.
  destruct (dry_run_ignores_the_world pylib scripted scripted Ex.dry_two
              [] [refused "Connection refused"] eq_refl eq_refl)
    as (tr & r & H1 & H2 & Hp).
  assert (snd (run pylib scripted Ex.dry_two []) = inr tt) as Hr
      by (vm_compute; reflexivity).
  rewrite H1 in Hr.
  cbn [snd] in Hr. subst r.
  exists tr. split; [exact H1|]. split; [exact H2|exact Hp].
Defined.
